(** * Address book assistant (7.py): a shallow embedding and its properties

    The Python module defines the field classes [Field], [Name], [Phone] and
    [Birthday], the class [Record] of one contact, the class [AddressBook]
    (a [UserDict] keyed by contact name) and a command loop [main].

    Conventions of the embedding.
    - A Python [str] is a [string]; every [ascii] stands for one character
      whose code point is below 256.  On these characters the regular
      expression class [\d] is exactly ['0'..'9'].
    - A method that mutates [self] and may raise is a function from the
      object to a result together with the object afterwards.
    - [datetime.today()] reads the clock: the reading is an argument, and
      code that reads the clock several times takes the sequence of readings
      and threads the number of readings made so far.
    - A [dict] is an association list in insertion order with distinct keys.
    - [strftime] leaves the year to the C library; whether that pads years
      below 1000 to four digits is the argument [pads]. *)

From Stdlib Require Import ZArith List String Ascii Bool Lia DecimalString.
Import ListNotations.

Local Open Scope string_scope.
Local Open Scope Z_scope.

(** ** Exceptions and results *)

Inductive exn : Type :=
| ValueError (msg : string)
| IndexError (msg : string)
| EOFError.

Inductive result (A : Type) : Type :=
| Ok (a : A)
| Raise (e : exn).

Arguments Ok {A} a.
Arguments Raise {A} e.

Definition bind {A B : Type} (r : result A) (k : A -> result B) : result B :=
  match r with
  | Ok a => k a
  | Raise e => Raise e
  end.

Notation "'let*' x ':=' r 'in' k" := (bind r (fun x => k))
  (at level 10, x pattern, r at level 100, k at level 200).

(** ** Characters and strings *)

Definition code (c : ascii) : Z := Z.of_nat (nat_of_ascii c).

Definition in_range (lo hi c : ascii) : bool :=
  (code lo <=? code c) && (code c <=? code hi).

(** The class [\d] of the [re] module, on characters below 256. *)
Definition is_digit (c : ascii) : bool := in_range "0" "9" c.

(** [str.isspace] on characters below 256: tab to carriage return, the
    separators 0x1c to 0x1f, space, next line (0x85) and no-break space. *)
Definition is_space (c : ascii) : bool :=
  let n := code c in
  ((9 <=? n) && (n <=? 13)) || ((28 <=? n) && (n <=? 32))
  || (n =? 133) || (n =? 160).

Definition digit_val (c : ascii) : Z := code c - 48.

Definition digit_char (n : Z) : ascii := ascii_of_nat (Z.to_nat (48 + n)).

Fixpoint all_chars (p : ascii -> bool) (s : string) : bool :=
  match s with
  | EmptyString => true
  | String c s' => p c && all_chars p s'
  end.

Fixpoint join (sep : string) (l : list string) : string :=
  match l with
  | [] => ""
  | [x] => x
  | x :: l' => x ++ sep ++ join sep l'
  end.

(** ** A backtracking matcher for the regular expressions the code uses

    [re_match r s] lists, in the order in which a backtracking engine tries
    them, the ways [r] matches a prefix of [s]: the matched text and the rest
    of the input. *)

Inductive regex : Type :=
| Eps
| Chr (p : ascii -> bool)
| Seq (r1 r2 : regex)
| Alt (r1 r2 : regex).

Fixpoint rep (n : nat) (r : regex) : regex :=
  match n with
  | O => Eps
  | S n' => Seq r (rep n' r)
  end.

Fixpoint re_match (r : regex) (s : string) : list (string * string) :=
  match r with
  | Eps => [("", s)]
  | Chr p =>
      match s with
      | String c s' => if p c then [(String c "", s')] else []
      | EmptyString => []
      end
  | Seq r1 r2 =>
      flat_map (fun m1 =>
                  map (fun m2 => (fst m1 ++ fst m2, snd m2))
                      (re_match r2 (snd m1)))
               (re_match r1 s)
  | Alt r1 r2 => re_match r1 s ++ re_match r2 s
  end.

(** [re.fullmatch]: some way of matching consumes the whole input. *)
Definition re_fullmatch (r : regex) (s : string) : bool :=
  existsb (fun m => (snd m =? "")%string) (re_match r s).

Definition lit (c : ascii) : regex := Chr (Ascii.eqb c).
Definition cls (lo hi : ascii) : regex := Chr (in_range lo hi).
Definition d_ : regex := Chr is_digit.

(** ** Field, Name, Phone, Birthday *)

Module Name.
Record t : Type := mk { value : string }.
Definition str (n : t) : string := value n.
End Name.

Module Phone.
Record t : Type := mk { value : string }.

(** The pattern [\d{10}]. *)
Definition pattern : regex := rep 10 d_.

Definition phone_error : exn :=
  ValueError "Phone number must be exactly 10 digits.".

(** [set_phone]: the object afterwards is the old one when it raises. *)
Definition set_phone (v : string) (self : t) : result unit * t :=
  if re_fullmatch pattern v then (Ok tt, mk v) else (Raise phone_error, self).

(** [Phone(value)]: [self.value = None], then [set_phone].  The object under
    construction (the placeholder below stands for its [None]) is dropped
    when [set_phone] raises, so every [Phone] that exists holds a string. *)
Definition init (v : string) : result t :=
  match set_phone v (mk "") with
  | (Ok _, self) => Ok self
  | (Raise e, _) => Raise e
  end.

Definition str (p : t) : string := value p.
End Phone.

(** ** The parts of the [datetime] library the code calls

    Naive date-times of the proleptic Gregorian calendar, as
    [datetime.datetime] has them. *)

Module datetime.
Record t : Type := mk {
  year : Z; month : Z; day : Z;
  hour : Z; minute : Z; second : Z; microsecond : Z }.

Definition MINYEAR : Z := 1.
Definition MAXYEAR : Z := 9999.

Definition is_leap (y : Z) : bool :=
  (y mod 4 =? 0) && (negb (y mod 100 =? 0) || (y mod 400 =? 0)).

Definition days_in_month (y m : Z) : Z :=
  if m =? 2 then (if is_leap y then 29 else 28)
  else if (m =? 4) || (m =? 6) || (m =? 9) || (m =? 11) then 30
  else 31.

(** Days before January 1st of year [y]. *)
Definition days_before_year (y : Z) : Z :=
  let y1 := y - 1 in y1 * 365 + y1 / 4 - y1 / 100 + y1 / 400.

Definition days_before_month_table : list Z :=
  [0; 31; 59; 90; 120; 151; 181; 212; 243; 273; 304; 334].

(** Days of year [y] before the first day of month [m]. *)
Definition days_before_month (y m : Z) : Z :=
  nth (Z.to_nat (m - 1)) days_before_month_table 0
  + (if (2 <? m) && is_leap y then 1 else 0).

Definition ymd2ord (y m d : Z) : Z :=
  days_before_year y + days_before_month y m + d.

Definition toordinal (dt : t) : Z := ymd2ord (year dt) (month dt) (day dt).

(** The check every constructor of a date runs on its fields. *)
Definition check_date_fields (y m d : Z) : result unit :=
  if negb ((MINYEAR <=? y) && (y <=? MAXYEAR)) then
    Raise (ValueError ("year " ++ NilZero.string_of_int (Z.to_int y)
                       ++ " is out of range"))
  else if negb ((1 <=? m) && (m <=? 12)) then
    Raise (ValueError "month must be in 1..12")
  else if negb ((1 <=? d) && (d <=? days_in_month y m)) then
    Raise (ValueError "day is out of range for month")
  else Ok tt.

(** [datetime(year, month, day)]: midnight of that day. *)
Definition init (y m d : Z) : result t :=
  let* _ := check_date_fields y m d in Ok (mk y m d 0 0 0 0).

(** [self.replace(year=y)]: a new object with the other fields kept, built
    by the constructor, so the date is checked again. *)
Definition replace_year (y : Z) (self : t) : result t :=
  let* _ := check_date_fields y (month self) (day self) in
  Ok (mk y (month self) (day self)
         (hour self) (minute self) (second self) (microsecond self)).

Definition fields (dt : t) : list Z :=
  [year dt; month dt; day dt; hour dt; minute dt; second dt; microsecond dt].

(** Comparison of tuples of integers. *)
Fixpoint cmp (a b : list Z) : comparison :=
  match a, b with
  | [], [] => Eq
  | [], _ :: _ => Lt
  | _ :: _, [] => Gt
  | x :: a', y :: b' =>
      match x ?= y with
      | Eq => cmp a' b'
      | c => c
      end
  end.

(** [self < other]. *)
Definition ltb (self other : t) : bool :=
  match cmp (fields self) (fields other) with
  | Lt => true
  | _ => false
  end.
End datetime.

Module timedelta.
Record t : Type := mk { days : Z; seconds : Z; microseconds : Z }.

Definition us_per_day : Z := 86400 * 1000000.

(** [timedelta(days, seconds, microseconds)] normalises its arguments:
    [0 <= seconds < 86400] and [0 <= microseconds < 1000000], the sign is
    carried by [days]. *)
Definition init (d s us : Z) : t :=
  let total := (d * 86400 + s) * 1000000 + us in
  mk (total / us_per_day)
     ((total mod us_per_day) / 1000000)
     (total mod 1000000).
End timedelta.

(** [self - other] on two date-times. *)
Definition datetime_sub (self other : datetime.t) : timedelta.t :=
  let secs (dt : datetime.t) :=
    datetime.second dt + datetime.minute dt * 60 + datetime.hour dt * 3600 in
  timedelta.init (datetime.toordinal self - datetime.toordinal other)
                 (secs self - secs other)
                 (datetime.microsecond self - datetime.microsecond other).

(** ** [str.strip], [str.split] and [int] *)

Fixpoint lstrip (s : string) : string :=
  match s with
  | String c s' => if is_space c then lstrip s' else s
  | EmptyString => ""
  end.

Fixpoint rstrip (s : string) : string :=
  match s with
  | EmptyString => ""
  | String c s' =>
      let r := rstrip s' in
      if is_space c && (r =? "")%string then "" else String c r
  end.

Definition strip (s : string) : string := rstrip (lstrip s).

(** [s.split()]: the maximal runs of characters that are not white space.
    [cur] is the run being read, if any. *)
Fixpoint split_from (cur : option string) (s : string) : list string :=
  match s with
  | EmptyString =>
      match cur with
      | Some w => [w]
      | None => []
      end
  | String c s' =>
      if is_space c then
        match cur with
        | Some w => w :: split_from None s'
        | None => split_from None s'
        end
      else
        split_from (Some (match cur with
                          | Some w => w ++ String c ""
                          | None => String c ""
                          end)) s'
  end.

Definition split (s : string) : list string := split_from None s.

Fixpoint int_digits (acc : Z) (s : string) : option Z :=
  match s with
  | EmptyString => Some acc
  | String c s' =>
      if is_digit c then int_digits (10 * acc + digit_val c) s' else None
  end.

(** [int(s)] on the texts the code converts: decimal digits, with white
    space around them allowed. *)
Definition int (s : string) : result Z :=
  match strip s with
  | EmptyString => Raise (ValueError "invalid literal for int()")
  | s' =>
      match int_digits 0 s' with
      | Some n => Ok n
      | None => Raise (ValueError "invalid literal for int()")
      end
  end.

(** ** [datetime.strptime(value, "%d.%m.%Y")] and [strftime("%d.%m.%Y")]

    [strptime] turns the format into a regular expression with one group per
    directive, matches it at the start of the input, refuses input that the
    match leaves unconverted, converts the groups with [int] and calls the
    constructor.  The directives' expressions are those of the library:
    [%d] is [3[0-1]|[1-2]\d|0[1-9]|[1-9]| [1-9]], [%m] is
    [1[0-2]|0[1-9]|[1-9]] and [%Y] is [\d\d\d\d].  The texts of the
    library's own exceptions are shortened: [Birthday] replaces them. *)

Definition re_d : regex :=
  Alt (Seq (lit "3") (cls "0" "1"))
 (Alt (Seq (cls "1" "2") d_)
 (Alt (Seq (lit "0") (cls "1" "9"))
 (Alt (cls "1" "9")
      (Seq (lit " ") (cls "1" "9"))))).

Definition re_m : regex :=
  Alt (Seq (lit "1") (cls "0" "2"))
 (Alt (Seq (lit "0") (cls "1" "9"))
      (cls "1" "9")).

Definition re_Y : regex := Seq d_ (Seq d_ (Seq d_ d_)).

(** The ways to match the group [r] and the dot of the format after it: the
    text of the group and the rest of the input after the dot. *)
Definition group_dot (r : regex) (s : string) : list (string * string) :=
  flat_map (fun g => map (fun p => (fst g, snd p))
                         (re_match (lit ".") (snd g)))
           (re_match r s).

(** The groups [d], [m], [Y] and the unconverted rest of every way the
    format's expression matches a prefix of [s], in the engine's order. *)
Definition match_format (s : string)
  : list (string * string * string * string) :=
  flat_map (fun gd =>
  flat_map (fun gm =>
  map (fun gY => (fst gd, fst gm, fst gY, snd gY))
      (re_match re_Y (snd gm)))
      (group_dot re_m (snd gd)))
      (group_dot re_d s).

Definition strptime (s : string) : result datetime.t :=
  match match_format s with
  | [] => Raise (ValueError "time data does not match format")
  | (gd, gm, gY, rest) :: _ =>
      if (rest =? "")%string then
        let* y := int gY in
        let* m := int gm in
        let* d := int gd in
        datetime.init y m d
      else Raise (ValueError "unconverted data remains")
  end.

(** Two and four decimal digits, zero padded. *)
Definition zfill2 (n : Z) : string :=
  String (digit_char (n / 10)) (String (digit_char (n mod 10)) "").

Definition zfill4 (n : Z) : string :=
  zfill2 (n / 100) ++ zfill2 (n mod 100).

(** [%Y] is handed to the C library.  The documentation gives the year with
    century in four digits, [0001] to [9999]; a C library that does not pad
    (glibc) gives the decimal numeral, three digits or fewer below 1000.
    [pads] says which of the two the platform does. *)
Definition year_text (pads : bool) (y : Z) : string :=
  if pads then zfill4 y else NilZero.string_of_int (Z.to_int y).

(** [self.strftime("%d.%m.%Y")]: [%d] and [%m] are two digits. *)
Definition strftime (pads : bool) (dt : datetime.t) : string :=
  zfill2 (datetime.day dt) ++ "." ++ zfill2 (datetime.month dt) ++ "."
  ++ year_text pads (datetime.year dt).

Module Birthday.
Record t : Type := mk { value : datetime.t }.

Definition birthday_error : exn :=
  ValueError "Invalid date format. Use DD.MM.YYYY".

(** [Birthday(value)]: any [ValueError] of [strptime] is replaced. *)
Definition init (v : string) : result t :=
  match strptime v with
  | Ok dt => Ok (mk dt)
  | Raise (ValueError _) => Raise birthday_error
  | Raise e => Raise e
  end.

Definition str (pads : bool) (b : t) : string := strftime pads (value b).
End Birthday.

(** ** Record *)

Module Record.
Record t : Type := mk {
  name : Name.t;
  phones : list Phone.t;
  birthday : option Birthday.t }.

Definition init (n : string) : t := mk (Name.mk n) [] None.

Definition set_phones (l : list Phone.t) (self : t) : t :=
  mk (name self) l (birthday self).

Definition set_birthday (b : option Birthday.t) (self : t) : t :=
  mk (name self) (phones self) b.

Definition add_phone (phone : string) (self : t) : result unit * t :=
  match Phone.init phone with
  | Ok p => (Ok tt, set_phones (phones self ++ [p]) self)
  | Raise e => (Raise e, self)
  end.

(** The loop of [remove_phone]: the first phone whose value is [phone] is
    removed from the list. *)
Fixpoint remove_loop (phone : string) (l : list Phone.t)
  : result unit * list Phone.t :=
  match l with
  | [] => (Raise (ValueError "Phone number not found."), [])
  | p :: l' =>
      if (Phone.value p =? phone)%string then (Ok tt, l')
      else let (r, l'') := remove_loop phone l' in (r, p :: l'')
  end.

Definition remove_phone (phone : string) (self : t) : result unit * t :=
  let (r, l) := remove_loop phone (phones self) in (r, set_phones l self).

(** The loop of [edit_phone]: [set_phone] is called on the first phone whose
    value is [old_phone], and the method returns or raises with it. *)
Fixpoint edit_loop (old_phone new_phone : string) (l : list Phone.t)
  : result unit * list Phone.t :=
  match l with
  | [] => (Raise (ValueError "Old phone number not found."), [])
  | p :: l' =>
      if (Phone.value p =? old_phone)%string then
        let (r, p') := Phone.set_phone new_phone p in (r, p' :: l')
      else
        let (r, l'') := edit_loop old_phone new_phone l' in (r, p :: l'')
  end.

Definition edit_phone (old_phone new_phone : string) (self : t)
  : result unit * t :=
  let (r, l) := edit_loop old_phone new_phone (phones self) in
  (r, set_phones l self).

Definition add_birthday (b : string) (self : t) : result unit * t :=
  match Birthday.init b with
  | Ok v => (Ok tt, set_birthday (Some v) self)
  | Raise e => (Raise e, self)
  end.

(** [days_to_birthday]; [today] is what [datetime.today()] returns. *)
Definition days_to_birthday (today : datetime.t) (self : t)
  : result (option Z) :=
  match birthday self with
  | None => Ok None
  | Some b =>
      let* next_birthday :=
        datetime.replace_year (datetime.year today) (Birthday.value b) in
      let* next_birthday :=
        if datetime.ltb next_birthday today
        then datetime.replace_year (datetime.year today + 1) next_birthday
        else Ok next_birthday in
      Ok (Some (timedelta.days (datetime_sub next_birthday today)))
  end.

Definition str (pads : bool) (self : t) : string :=
  let phones_str := join "; " (map Phone.str (phones self)) in
  let birthday_str :=
    match birthday self with
    | Some b => ", Birthday: " ++ Birthday.str pads b
    | None => ""
    end in
  "Contact name: " ++ Name.str (name self) ++ ", phones: " ++ phones_str
  ++ birthday_str.
End Record.

(** ** AddressBook *)

(** The [dict] operations the code uses, on an association list kept in
    insertion order. *)
Module dict.
Section Dict.
Context {V : Type}.

Definition t : Type := list (string * V).

Definition empty : t := [].

(** [d.get(k, None)]. *)
Fixpoint get (k : string) (d : t) : option V :=
  match d with
  | [] => None
  | (k', v) :: d' => if (k' =? k)%string then Some v else get k d'
  end.

(** [k in d]. *)
Definition contains (k : string) (d : t) : bool :=
  match get k d with
  | Some _ => true
  | None => false
  end.

(** [d[k] = v]: an existing key keeps its place, a new one goes last. *)
Fixpoint setitem (k : string) (v : V) (d : t) : t :=
  match d with
  | [] => [(k, v)]
  | (k', v') :: d' =>
      if (k' =? k)%string then (k, v) :: d' else (k', v') :: setitem k v d'
  end.

(** [del d[k]] for a key that is present. *)
Fixpoint delitem (k : string) (d : t) : t :=
  match d with
  | [] => []
  | (k', v) :: d' => if (k' =? k)%string then d' else (k', v) :: delitem k d'
  end.

Definition keys (d : t) : list string := map fst d.
Definition values (d : t) : list V := map snd d.

(** The keys of a dictionary are distinct. *)
Definition wf (d : t) : Prop := NoDup (keys d).
End Dict.
Arguments t V : clear implicits.
End dict.

(** One element of the list [get_upcoming_birthdays] returns: the dictionary
    with the keys ["name"] and ["birthday"]. *)
Record entry : Type :=
  mk_entry { entry_name : string; entry_birthday : string }.

Module AddressBook.
Record t : Type := mk { data : dict.t Record.t }.

Definition init : t := mk dict.empty.

Definition add_record (record : Record.t) (self : t) : t :=
  mk (dict.setitem (Name.value (Record.name record)) record (data self)).

Definition find (n : string) (self : t) : option Record.t :=
  dict.get n (data self).

Definition delete (n : string) (self : t) : result unit * t :=
  if dict.contains n (data self) then (Ok tt, mk (dict.delitem n (data self)))
  else (Raise (ValueError "Record not found."), self).

(** The loop of [get_upcoming_birthdays].  [days_to_birthday] reads the clock
    once for every record that has a birthday: [clock n] is the reading
    number [n], and the number of readings made is returned too. *)
Fixpoint upcoming_loop (pads : bool) (clock : nat -> datetime.t) (n : nat)
  (records : list Record.t) (upcoming_birthdays : list entry)
  : result (list entry) * nat :=
  match records with
  | [] => (Ok upcoming_birthdays, n)
  | record :: rest =>
      match Record.birthday record with
      | None => upcoming_loop pads clock n rest upcoming_birthdays
      | Some b =>
          match Record.days_to_birthday (clock n) record with
          | Raise e => (Raise e, S n)
          | Ok days =>
              upcoming_loop pads clock (S n) rest
                (match days with
                 | Some d =>
                     if d <=? 7 then
                       upcoming_birthdays
                       ++ [mk_entry (Name.value (Record.name record))
                                    (strftime pads (Birthday.value b))]
                     else upcoming_birthdays
                 | None => upcoming_birthdays
                 end)
          end
      end
  end.

(** [get_upcoming_birthdays]: the reading number [n] is the one stored in
    the unused local [today]. *)
Definition get_upcoming_birthdays (pads : bool) (clock : nat -> datetime.t)
  (n : nat) (self : t) : result (list entry) * nat :=
  upcoming_loop pads clock (S n) (dict.values (data self)) [].

Definition nl : string := String (ascii_of_nat 10) "".

Definition str (pads : bool) (self : t) : string :=
  join nl (map (Record.str pads) (dict.values (data self))).
End AddressBook.

(** ** The command layer

    What [print] writes is collected line by line; the prompt of [input] is
    not recorded.  The state of the loop is the address book and the number
    of clock readings made. *)

Record state : Type := mk_state { book : AddressBook.t; ticks : nat }.

(** [str(e)] of the exceptions that occur. *)
Definition exn_str (e : exn) : string :=
  match e with
  | ValueError msg => msg
  | IndexError msg => msg
  | EOFError => ""
  end.

(** The decorator [input_error]: [func] has printed [out] and returned or
    raised; an exception is printed and swallowed. *)
Definition input_error {S : Type} (func : list string * result unit * S)
  : list string * S :=
  match func with
  | (out, Ok _, s) => (out, s)
  | (out, Raise e, s) => ((out ++ [exn_str e])%list, s)
  end.

Definition index_error : exn := IndexError "list index out of range".

(** [book.data[name] = record] for a record mutated in place. *)
Definition store (n : string) (record : Record.t) (b : AddressBook.t)
  : AddressBook.t :=
  AddressBook.mk (dict.setitem n record (AddressBook.data b)).

(** The command function [add_birthday(args, book)]. *)
Definition add_birthday (args : list string) (st : state)
  : list string * state :=
  input_error
    match args with
    | n :: birthday :: _ =>
        match dict.get n (AddressBook.data (book st)) with
        | Some record =>
            match Record.add_birthday birthday record with
            | (Ok _, record') =>
                (["Birthday " ++ birthday ++ " added for " ++ n ++ "."],
                 Ok tt, mk_state (store n record' (book st)) (ticks st))
            | (Raise e, _) => ([], Raise e, st)
            end
        | None => (["No contact found with name " ++ n ++ "."], Ok tt, st)
        end
    | _ => ([], Raise index_error, st)
    end.

Definition show_birthday (pads : bool) (args : list string) (st : state)
  : list string * state :=
  input_error
    match args with
    | n :: _ =>
        match dict.get n (AddressBook.data (book st)) with
        | Some (Record.mk _ _ (Some b)) =>
            ([n ++ "'s birthday is on " ++ Birthday.str pads b ++ "."],
             Ok tt, st)
        | _ => (["No birthday found for " ++ n ++ "."], Ok tt, st)
        end
    | _ => ([], Raise index_error, st)
    end.

Definition birthdays (pads : bool) (clock : nat -> datetime.t)
  (args : list string) (st : state) : list string * state :=
  input_error
    match AddressBook.get_upcoming_birthdays pads clock (ticks st) (book st)
    with
    | (Ok [], n) =>
        (["No upcoming birthdays in the next 7 days."], Ok tt,
         mk_state (book st) n)
    | (Ok upcoming, n) =>
        (map (fun e => entry_name e ++ " has a birthday on "
                       ++ entry_birthday e ++ ".") upcoming,
         Ok tt, mk_state (book st) n)
    | (Raise e, n) => ([], Raise e, mk_state (book st) n)
    end.

(** [parse_input]: the first word and the list of the others. *)
Definition parse_input (user_input : string) : result (string * list string) :=
  match split (strip user_input) with
  | command :: args => Ok (command, args)
  | [] => Raise index_error
  end.

Inductive control : Type := Continue | Break.

(** The body of the loop of [main] after [input] has returned [user_input]:
    what it prints, whether the loop goes on, stops or an exception leaves
    it, and the state afterwards.  A test [len(args) < k] followed by
    [args[0]] .. [args[k-1]] is a match on the list. *)
Definition step (pads : bool) (clock : nat -> datetime.t)
  (user_input : string) (st : state) : list string * result control * state :=
  match parse_input user_input with
  | Raise e => ([], Raise e, st)
  | Ok (command, args) =>
      if (command =? "close")%string || (command =? "exit")%string then
        (["Good bye!"], Ok Break, st)
      else if (command =? "hello")%string then
        (["How can I help you?"], Ok Continue, st)
      else if (command =? "add")%string then
        match args with
        | n :: phone :: _ =>
            match dict.get n (AddressBook.data (book st)) with
            | Some record =>
                match Record.add_phone phone record with
                | (Ok _, record') =>
                    (["Added phone " ++ phone ++ " to existing contact "
                      ++ n ++ "."], Ok Continue,
                     mk_state (store n record' (book st)) (ticks st))
                | (Raise e, _) => ([], Raise e, st)
                end
            | None =>
                match Record.add_phone phone (Record.init n) with
                | (Ok _, record) =>
                    (["Created new contact " ++ n ++ " with phone "
                      ++ phone ++ "."], Ok Continue,
                     mk_state (AddressBook.add_record record (book st))
                              (ticks st))
                | (Raise e, _) => ([], Raise e, st)
                end
            end
        | _ => (["Please provide both name and phone number."],
                Ok Continue, st)
        end
      else if (command =? "change")%string then
        match args with
        | n :: old_phone :: new_phone :: _ =>
            match dict.get n (AddressBook.data (book st)) with
            | Some record =>
                match Record.edit_phone old_phone new_phone record with
                | (Ok _, record') =>
                    (["Changed phone " ++ old_phone ++ " to " ++ new_phone
                      ++ " for contact " ++ n ++ "."], Ok Continue,
                     mk_state (store n record' (book st)) (ticks st))
                | (Raise (ValueError _), _) =>
                    (["Phone number " ++ old_phone
                      ++ " not found for contact " ++ n ++ "."],
                     Ok Continue, st)
                | (Raise e, _) => ([], Raise e, st)
                end
            | None =>
                (["No contact found with name " ++ n ++ "."], Ok Continue, st)
            end
        | _ => (["Please provide name, old phone, and new phone."],
                Ok Continue, st)
        end
      else if (command =? "phone")%string then
        match args with
        | n :: _ =>
            match dict.get n (AddressBook.data (book st)) with
            | Some record =>
                ([n ++ "'s phone numbers: "
                  ++ join ", " (map Phone.str (Record.phones record)) ++ "."],
                 Ok Continue, st)
            | None =>
                (["No contact found with name " ++ n ++ "."], Ok Continue, st)
            end
        | _ => (["Please provide a name."], Ok Continue, st)
        end
      else if (command =? "all")%string then
        match AddressBook.data (book st) with
        | [] => (["No contacts found."], Ok Continue, st)
        | _ => ([AddressBook.str pads (book st)], Ok Continue, st)
        end
      else if (command =? "add-birthday")%string then
        match args with
        | _ :: _ :: _ =>
            let (out, st') := add_birthday args st in (out, Ok Continue, st')
        | _ => (["Please provide both name and birthday."], Ok Continue, st)
        end
      else if (command =? "show-birthday")%string then
        match args with
        | _ :: _ =>
            let (out, st') := show_birthday pads args st in
            (out, Ok Continue, st')
        | _ => (["Please provide a name."], Ok Continue, st)
        end
      else if (command =? "birthdays")%string then
        let (out, st') := birthdays pads clock args st in
        (out, Ok Continue, st')
      else (["Invalid command."], Ok Continue, st)
  end.

(** The loop of [main] on the lines that [input] will return; at the end of
    the input [input] raises [EOFError]. *)
Fixpoint loop (pads : bool) (clock : nat -> datetime.t)
  (lines : list string) (st : state) : list string * result unit * state :=
  match lines with
  | [] => ([], Raise EOFError, st)
  | user_input :: rest =>
      match step pads clock user_input st with
      | (out, Ok Continue, st') =>
          let '(out', r, st'') := loop pads clock rest st' in
          ((out ++ out')%list, r, st'')
      | (out, Ok Break, st') => (out, Ok tt, st')
      | (out, Raise e, st') => (out, Raise e, st')
      end
  end.

Definition main (pads : bool) (clock : nat -> datetime.t)
  (lines : list string) : list string * result unit * state :=
  let '(out, r, st) :=
    loop pads clock lines (mk_state AddressBook.init O) in
  ("Welcome to the assistant bot!" :: out, r, st).

(** ** Notions the properties are stated with *)

(** A string of exactly ten decimal digits. *)
Definition ten_digits (s : string) : bool :=
  (String.length s =? 10)%nat && all_chars is_digit s.

(** [valid_date y m d]: a day of the calendar [datetime] supports. *)
Definition valid_date (y m d : Z) : Prop :=
  1 <= y <= 9999 /\ 1 <= m <= 12 /\ 1 <= d <= datetime.days_in_month y m.

Definition valid_dateb (y m d : Z) : bool :=
  (1 <=? y) && (y <=? 9999) && (1 <=? m) && (m <=? 12)
  && (1 <=? d) && (d <=? datetime.days_in_month y m).

(** A time of day as [datetime] has it. *)
Definition valid_time (h mi s us : Z) : Prop :=
  0 <= h < 24 /\ 0 <= mi < 60 /\ 0 <= s < 60 /\ 0 <= us < 1000000.

Definition is_midnight (h mi s us : Z) : bool :=
  (h =? 0) && (mi =? 0) && (s =? 0) && (us =? 0).

(** The text ["DD.MM.YYYY"] of a date. *)
Definition render_date (y m d : Z) : string :=
  zfill2 d ++ "." ++ zfill2 m ++ "." ++ zfill4 y.

(** [s] is written ["DD.MM.YYYY"] (two digits, two digits and four digits
    between dots) and names a day of the calendar. *)
Definition ddmmyyyy (s : string) : bool :=
  match s with
  | String d1 (String d2 (String p1 (String m1 (String m2 (String p2
      (String y1 (String y2 (String y3 (String y4 EmptyString))))))))) =>
      all_chars is_digit
        (String d1 (String d2 (String m1 (String m2
          (String y1 (String y2 (String y3 (String y4 ""))))))))
      && Ascii.eqb p1 "." && Ascii.eqb p2 "."
      && valid_dateb
           (1000 * digit_val y1 + 100 * digit_val y2
            + 10 * digit_val y3 + digit_val y4)
           (10 * digit_val m1 + digit_val m2)
           (10 * digit_val d1 + digit_val d2)
  | _ => false
  end.

(** The texts [strptime] takes for a day and for a month: two digits, one
    digit, and for the day one digit after a space. *)
Definition day_texts (d : Z) : list string :=
  zfill2 d
  :: (if d <? 10 then
        [String (digit_char d) ""; String " " (String (digit_char d) "")]
      else []).

Definition month_texts (m : Z) : list string :=
  zfill2 m :: (if m <? 10 then [String (digit_char m) ""] else []).

(** All the texts that [strptime] reads as the date [y], [m], [d]. *)
Definition date_texts (y m d : Z) : list string :=
  flat_map (fun td =>
    map (fun tm => td ++ "." ++ tm ++ "." ++ zfill4 y) (month_texts m))
    (day_texts d).

(** Four decimal digits before [rest]. *)
Definition four (a b c d : Z) (rest : string) : string :=
  String (digit_char a) (String (digit_char b)
    (String (digit_char c) (String (digit_char d) rest))).

(** [matches r t]: the text [t] is in the language of [r]. *)
Fixpoint matches (r : regex) (t : string) : Prop :=
  match r with
  | Eps => t = ""
  | Chr p => exists c, t = String c "" /\ p c = true
  | Seq r1 r2 =>
      exists t1 t2, t = (t1 ++ t2)%string /\ matches r1 t1 /\ matches r2 t2
  | Alt r1 r2 => matches r1 t \/ matches r2 t
  end.

(** The entries of a book are stored under the names of their records. *)
Definition key_name_consistent (b : AddressBook.t) : Prop :=
  Forall (fun kv => Name.value (Record.name (snd kv)) = fst kv)
         (AddressBook.data b).

(** The operations on a book and on the records in it. *)
Inductive op : Type :=
| AddRecord (record : Record.t)
| Delete (n : string)
| AddPhone (n phone : string)
| RemovePhone (n phone : string)
| EditPhone (n old_phone new_phone : string)
| AddBirthday (n birthday : string).

(** [book.data[n].method(...)] when [n] is in the book: the record is
    changed in place and stays under its key; what the method returns or
    raises plays no part in the state afterwards. *)
Definition mutate (n : string) (method : Record.t -> result unit * Record.t)
  (b : AddressBook.t) : AddressBook.t :=
  match dict.get n (AddressBook.data b) with
  | Some record => store n (snd (method record)) b
  | None => b
  end.

Definition apply_op (b : AddressBook.t) (o : op) : AddressBook.t :=
  match o with
  | AddRecord record => AddressBook.add_record record b
  | Delete n => snd (AddressBook.delete n b)
  | AddPhone n phone => mutate n (Record.add_phone phone) b
  | RemovePhone n phone => mutate n (Record.remove_phone phone) b
  | EditPhone n o' n' => mutate n (Record.edit_phone o' n') b
  | AddBirthday n birthday => mutate n (Record.add_birthday birthday) b
  end.

Definition run (ops : list op) (b : AddressBook.t) : AddressBook.t :=
  fold_left apply_op ops b.

(** Some phone of the list has the value [phone]. *)
Definition has_phone (phone : string) (l : list Phone.t) : bool :=
  existsb (fun p => (Phone.value p =? phone)%string) l.

(** The entry [get_upcoming_birthdays] makes for a record with a birthday. *)
Definition entry_of (pads : bool) (record : Record.t) : list entry :=
  match Record.birthday record with
  | Some b => [mk_entry (Name.value (Record.name record))
                        (Birthday.str pads b)]
  | None => []
  end.

(** [days_to_birthday] returns a number that is at most [window]. *)
Definition is_upcoming (today : datetime.t) (window : Z) (record : Record.t)
  : bool :=
  match Record.days_to_birthday today record with
  | Ok (Some d) => d <=? window
  | _ => false
  end.

(** No character of [s] is white space. *)
Definition no_space (s : string) : bool :=
  all_chars (fun c => negb (is_space c)) s.

(** A word of a command line: not empty and free of white space. *)
Definition is_word (s : string) : bool :=
  negb (s =? "")%string && all_chars (fun c => negb (is_space c)) s.

(** Every phone of every record of the book holds ten decimal digits. *)
Definition phones_valid (b : AddressBook.t) : Prop :=
  Forall (fun kv =>
            Forall (fun p => ten_digits (Phone.value p) = true)
                   (Record.phones (snd kv)))
         (AddressBook.data b).

(** A date-time [datetime] can hold. *)
Definition valid_datetime (dt : datetime.t) : Prop :=
  valid_date (datetime.year dt) (datetime.month dt) (datetime.day dt)
  /\ valid_time (datetime.hour dt) (datetime.minute dt) (datetime.second dt)
                (datetime.microsecond dt).

(** Midnight of the day of [dt]. *)
Definition at_midnight (dt : datetime.t) : Prop :=
  datetime.hour dt = 0 /\ datetime.minute dt = 0 /\ datetime.second dt = 0
  /\ datetime.microsecond dt = 0.

(** One day or none, for the leap day of the year [y]. *)
Definition leap_day (y : Z) : Z := if datetime.is_leap y then 1 else 0.

(** The birthday of the record, if it has one, is a day of the calendar at
    midnight, as [Birthday] stores it, and not 29 February. *)
Definition regular_birthday (r : Record.t) : Prop :=
  match Record.birthday r with
  | None => True
  | Some b =>
      valid_date (datetime.year (Birthday.value b))
                 (datetime.month (Birthday.value b))
                 (datetime.day (Birthday.value b))
      /\ at_midnight (Birthday.value b)
      /\ ~ (datetime.month (Birthday.value b) = 2
            /\ datetime.day (Birthday.value b) = 29)
  end.

(** One turn of the loop leaves the book as it is, or changes one record of
    it in place by [add_phone], [edit_phone] or [add_birthday], or adds the
    record of a new contact with one phone. *)
Inductive book_step (b : AddressBook.t) : AddressBook.t -> Prop :=
| bs_same : book_step b b
| bs_add_phone n r phone :
    dict.get n (AddressBook.data b) = Some r ->
    book_step b (store n (snd (Record.add_phone phone r)) b)
| bs_edit_phone n r old_phone new_phone :
    dict.get n (AddressBook.data b) = Some r ->
    book_step b (store n (snd (Record.edit_phone old_phone new_phone r)) b)
| bs_add_birthday n r birthday :
    dict.get n (AddressBook.data b) = Some r ->
    book_step b (store n (snd (Record.add_birthday birthday r)) b)
| bs_new n phone :
    dict.get n (AddressBook.data b) = None ->
    book_step b (AddressBook.add_record
                   (snd (Record.add_phone phone (Record.init n))) b).

(** The rule on dates, as the description of the method words it: the month
    and the day of the birthday are put into the year of the reference date;
    when the date so composed is strictly before the reference date the year
    is advanced by one; the result is the difference in whole days.
    The birthday is [bm], [bd] and the reference date [ry], [rm], [rd]. *)
Definition rule_on_dates (bm bd ry rm rd : Z) : Z :=
  let composed_before :=
    match datetime.cmp [ry; bm; bd] [ry; rm; rd] with
    | Lt => true
    | _ => false
    end in
  datetime.ymd2ord (if composed_before then ry + 1 else ry) bm bd
  - datetime.ymd2ord ry rm rd.

(** * Properties *)

Local Open Scope list_scope.

(** ** Phone numbers *)

Lemma re_match_chr_seq (p : ascii -> bool) (r : regex) (c : ascii)
  (s : string) :
  re_match (Seq (Chr p) r) (String c s)
  = if p c then map (fun m => (String c (fst m), snd m)) (re_match r s)
    else [].
Proof.
  simpl. destruct (p c); simpl; [now rewrite app_nil_r | reflexivity].
Qed.

Lemma re_match_chr_seq_empty (p : ascii -> bool) (r : regex) :
  re_match (Seq (Chr p) r) "" = [].
Proof. reflexivity. Qed.

Lemma existsb_map_comp {A B : Type} (f : B -> bool) (g : A -> B) (l : list A) :
  existsb f (map g l) = existsb (fun x => f (g x)) l.
Proof.
  induction l as [|x l IH]; cbn; [reflexivity | now rewrite IH].
Qed.

Lemma re_fullmatch_rep_chr (p : ascii -> bool) (n : nat) (s : string) :
  re_fullmatch (rep n (Chr p)) s
  = (String.length s =? n)%nat && all_chars p s.
Proof.
  revert s; induction n as [|n IH]; intros [|c s].
  - reflexivity.
  - reflexivity.
  - reflexivity.
  - unfold re_fullmatch in *. cbn [rep].
    rewrite re_match_chr_seq. cbn [String.length all_chars Nat.eqb].
    destruct (p c).
    + rewrite existsb_map_comp. cbn [snd andb]. now rewrite <- IH.
    + cbn. now rewrite andb_false_r.
Qed.

Lemma pattern_ten_digits (s : string) :
  re_fullmatch Phone.pattern s = ten_digits s.
Proof. apply re_fullmatch_rep_chr. Qed.

(** C2.  A string of exactly ten decimal digits makes a [Phone] whose text
    is that string; every other string makes the constructor raise the
    [ValueError] of the phone format. *)
Theorem C2_phone_construction (s : string) :
  if ten_digits s
  then exists p, Phone.init s = Ok p /\ Phone.str p = s
  else Phone.init s = Raise Phone.phone_error.
Proof.
  unfold Phone.init, Phone.set_phone. rewrite pattern_ten_digits.
  destruct (ten_digits s).
  - eexists; split; reflexivity.
  - reflexivity.
Qed.

(** ** Editing a phone *)

Lemma set_phones_same (r : Record.t) :
  Record.set_phones (Record.phones r) r = r.
Proof. now destruct r. Qed.

Lemma edit_loop_absent (old_phone new_phone : string) (l : list Phone.t) :
  has_phone old_phone l = false ->
  Record.edit_loop old_phone new_phone l
  = (Raise (ValueError "Old phone number not found."), l).
Proof.
  induction l as [|p l IH]; cbn; [reflexivity|].
  destruct (Phone.value p =? old_phone)%string; cbn; [discriminate|].
  intros H. now rewrite (IH H).
Qed.

Lemma edit_loop_first (new_phone : string) (l1 l2 : list Phone.t)
  (p : Phone.t) :
  has_phone (Phone.value p) l1 = false ->
  Record.edit_loop (Phone.value p) new_phone (l1 ++ p :: l2)
  = (fst (Phone.set_phone new_phone p),
     l1 ++ snd (Phone.set_phone new_phone p) :: l2).
Proof.
  induction l1 as [|q l1 IH]; cbn.
  - rewrite String.eqb_refl. now destruct (Phone.set_phone new_phone p).
  - destruct (Phone.value q =? Phone.value p)%string; cbn; [discriminate|].
    intros H. now rewrite (IH H).
Qed.

(** C4.  [edit_phone] changes the first phone equal to the old number and no
    other: a record with the one phone 1111111111 has the one phone
    2222222222 afterwards.  When no phone equals the old number it raises
    the [ValueError] of the missing phone, and when the new number is not
    ten digits it raises the [ValueError] of the phone format; the record is
    the same afterwards in both cases. *)
Theorem C4_edit_phone :
  (forall n,
     Record.edit_phone "1111111111" "2222222222"
       (Record.mk n [Phone.mk "1111111111"] None)
     = (Ok tt, Record.mk n [Phone.mk "2222222222"] None))
  /\ (forall r l1 p l2 new_phone,
        Record.phones r = l1 ++ p :: l2 ->
        has_phone (Phone.value p) l1 = false ->
        ten_digits new_phone = true ->
        Record.edit_phone (Phone.value p) new_phone r
        = (Ok tt, Record.set_phones (l1 ++ Phone.mk new_phone :: l2) r))
  /\ (forall r old_phone new_phone,
        has_phone old_phone (Record.phones r) = false ->
        Record.edit_phone old_phone new_phone r
        = (Raise (ValueError "Old phone number not found."), r))
  /\ (forall r l1 p l2 new_phone,
        Record.phones r = l1 ++ p :: l2 ->
        has_phone (Phone.value p) l1 = false ->
        ten_digits new_phone = false ->
        Record.edit_phone (Phone.value p) new_phone r
        = (Raise Phone.phone_error, r)).
Proof.
  repeat split.
  - intros r l1 p l2 new_phone Hl Habs Hnew.
    unfold Record.edit_phone. rewrite Hl, edit_loop_first by assumption.
    unfold Phone.set_phone. now rewrite pattern_ten_digits, Hnew.
  - intros r old_phone new_phone Habs.
    unfold Record.edit_phone. rewrite edit_loop_absent by assumption.
    now rewrite set_phones_same.
  - intros r l1 p l2 new_phone Hl Habs Hnew.
    unfold Record.edit_phone. rewrite Hl, edit_loop_first by assumption.
    unfold Phone.set_phone. rewrite pattern_ten_digits, Hnew. cbn [fst snd].
    now rewrite <- Hl, set_phones_same.
Qed.

Lemma C4_edit_phone_witness :
  let r := Record.mk (Name.mk "Ann")
             [Phone.mk "0000000000"; Phone.mk "1111111111";
              Phone.mk "1111111111"] None in
  Record.edit_phone "1111111111" "2222222222" r
  = (Ok tt, Record.set_phones
              [Phone.mk "0000000000"; Phone.mk "2222222222";
               Phone.mk "1111111111"] r)
  /\ Record.edit_phone "3333333333" "2222222222" r
     = (Raise (ValueError "Old phone number not found."), r)
  /\ Record.edit_phone "1111111111" "22222" r
     = (Raise Phone.phone_error, r).
Proof.
  intros r.
  destruct C4_edit_phone as (_ & Hok & Habs & Hbad).
  split; [|split].
  - apply (Hok r [Phone.mk "0000000000"] (Phone.mk "1111111111")
               [Phone.mk "1111111111"] "2222222222"); reflexivity.
  - apply (Habs r "3333333333" "2222222222"); reflexivity.
  - apply (Hbad r [Phone.mk "0000000000"] (Phone.mk "1111111111")
                [Phone.mk "1111111111"] "22222"); reflexivity.
Defined.

(** ** Dictionaries and deletion *)

Lemma get_none_not_in {V : Type} (k : string) (d : dict.t V) :
  dict.get k d = None -> ~ In k (dict.keys d).
Proof.
  induction d as [|[k' v] d IH]; cbn; [tauto|].
  destruct (String.eqb_spec k' k); [discriminate|].
  intros H [E|Hin]; [congruence | now apply IH].
Qed.

Lemma not_in_get_none {V : Type} (k : string) (d : dict.t V) :
  ~ In k (dict.keys d) -> dict.get k d = None.
Proof.
  induction d as [|[k' v] d IH]; cbn; [reflexivity|].
  intros H. destruct (String.eqb_spec k' k); [tauto|]. apply IH; tauto.
Qed.

Lemma get_delitem_other {V : Type} (k n : string) (d : dict.t V) :
  k <> n -> dict.get k (dict.delitem n d) = dict.get k d.
Proof.
  intros Hk. induction d as [|[k' v] d IH]; cbn; [reflexivity|].
  destruct (String.eqb_spec k' n) as [->|Hn].
  - destruct (String.eqb_spec n k); [congruence | reflexivity].
  - cbn. now rewrite IH.
Qed.

Lemma get_delitem_same {V : Type} (n : string) (d : dict.t V) :
  dict.wf d -> dict.get n (dict.delitem n d) = None.
Proof.
  unfold dict.wf. induction d as [|[k' v] d IH]; cbn; [reflexivity|].
  intros Hnd. inversion Hnd as [|? ? Hnotin Hnd']; subst.
  destruct (String.eqb_spec k' n) as [->|Hn].
  - now apply not_in_get_none.
  - cbn. destruct (String.eqb_spec k' n); [congruence | now apply IH].
Qed.

Lemma length_delitem {V : Type} (n : string) (d : dict.t V) :
  dict.contains n d = true ->
  S (List.length (dict.delitem n d)) = List.length d.
Proof.
  unfold dict.contains. induction d as [|[k' v] d IH]; cbn; [discriminate|].
  destruct (k' =? n)%string; [reflexivity|]. intros H. cbn. now rewrite IH.
Qed.

Lemma keys_delitem_incl {V : Type} (n : string) (d : dict.t V) :
  incl (dict.keys (dict.delitem n d)) (dict.keys d).
Proof.
  induction d as [|[k' v] d IH]; cbn; [apply incl_refl|].
  destruct (k' =? n)%string; [apply incl_tl, incl_refl|].
  cbn. intros x [E|Hin]; [now left | right; now apply IH].
Qed.

Lemma wf_delitem {V : Type} (n : string) (d : dict.t V) :
  dict.wf d -> dict.wf (dict.delitem n d).
Proof.
  unfold dict.wf. induction d as [|[k' v] d IH]; cbn; [trivial|].
  intros Hnd. inversion Hnd as [|? ? Hnotin Hnd']; subst.
  destruct (k' =? n)%string; [assumption|]. cbn. constructor.
  - intros Hin. apply Hnotin. now apply (keys_delitem_incl n d).
  - now apply IH.
Qed.

Lemma keys_setitem {V : Type} (k : string) (v : V) (d : dict.t V) :
  dict.keys (dict.setitem k v d)
  = if dict.contains k d then dict.keys d else dict.keys d ++ [k].
Proof.
  unfold dict.contains, dict.keys.
  induction d as [|[k' v'] d IH]; cbn; [reflexivity|].
  destruct (String.eqb_spec k' k) as [->|Hn]; cbn; [reflexivity|].
  rewrite IH. now destruct (dict.get k d).
Qed.

Lemma wf_setitem {V : Type} (k : string) (v : V) (d : dict.t V) :
  dict.wf d -> dict.wf (dict.setitem k v d).
Proof.
  unfold dict.wf. rewrite keys_setitem. unfold dict.contains.
  destruct (dict.get k d) eqn:E; [trivial|].
  intros Hnd. apply NoDup_app; [assumption | repeat constructor; cbn; tauto |].
  intros x Hin [<-|[]]. now apply (get_none_not_in _ _ E).
Qed.

(** C7.  [delete] of a name that is not a key raises the [ValueError] of the
    missing record and the book is the same afterwards; [delete] of a key
    returns, the name is no longer found, every other name is found as
    before and the book has one entry less. *)
Theorem C7_delete (b : AddressBook.t) (n : string) :
  (AddressBook.find n b = None ->
   AddressBook.delete n b = (Raise (ValueError "Record not found."), b))
  /\ (dict.wf (AddressBook.data b) ->
      AddressBook.find n b <> None ->
      exists b',
        AddressBook.delete n b = (Ok tt, b')
        /\ AddressBook.find n b' = None
        /\ (forall k, k <> n -> AddressBook.find k b' = AddressBook.find k b)
        /\ S (List.length (AddressBook.data b'))
           = List.length (AddressBook.data b)).
Proof.
  unfold AddressBook.find, AddressBook.delete, dict.contains. split.
  - intros ->. reflexivity.
  - intros Hwf Hin.
    destruct (dict.get n (AddressBook.data b)) eqn:E; [|congruence].
    eexists; split; [reflexivity|]. cbn [AddressBook.data]. repeat split.
    + now apply get_delitem_same.
    + intros k Hk. now apply get_delitem_other.
    + apply length_delitem. unfold dict.contains. now rewrite E.
Qed.

Lemma C7_delete_witness :
  let ann := Record.mk (Name.mk "Ann") [Phone.mk "0123456789"] None in
  let bob := Record.mk (Name.mk "Bob") [] None in
  let b := AddressBook.mk [("Ann", ann); ("Bob", bob)] in
  AddressBook.delete "Eve" b = (Raise (ValueError "Record not found."), b)
  /\ exists b',
       AddressBook.delete "Ann" b = (Ok tt, b')
       /\ AddressBook.find "Ann" b' = None
       /\ (forall k, k <> "Ann" -> AddressBook.find k b' = AddressBook.find k b)
       /\ S (List.length (AddressBook.data b'))
          = List.length (AddressBook.data b).
Proof.
  intros ann bob b. split.
  - apply (proj1 (C7_delete b "Eve")). reflexivity.
  - apply (proj2 (C7_delete b "Ann")).
    + repeat constructor; cbn; intuition discriminate.
    + discriminate.
Defined.

(** ** Records are stored under their own names *)

Lemma name_add_phone (phone : string) (r : Record.t) :
  Record.name (snd (Record.add_phone phone r)) = Record.name r.
Proof. unfold Record.add_phone. now destruct (Phone.init phone). Qed.

Lemma name_remove_phone (phone : string) (r : Record.t) :
  Record.name (snd (Record.remove_phone phone r)) = Record.name r.
Proof.
  unfold Record.remove_phone. now destruct (Record.remove_loop phone _).
Qed.

Lemma name_edit_phone (old_phone new_phone : string) (r : Record.t) :
  Record.name (snd (Record.edit_phone old_phone new_phone r)) = Record.name r.
Proof.
  unfold Record.edit_phone. now destruct (Record.edit_loop old_phone _ _).
Qed.

Lemma name_add_birthday (birthday : string) (r : Record.t) :
  Record.name (snd (Record.add_birthday birthday r)) = Record.name r.
Proof. unfold Record.add_birthday. now destruct (Birthday.init birthday). Qed.

Lemma consistent_get (b : AddressBook.t) (n : string) (r : Record.t) :
  key_name_consistent b ->
  dict.get n (AddressBook.data b) = Some r ->
  Name.value (Record.name r) = n.
Proof.
  unfold key_name_consistent. destruct b as [d]. cbn.
  induction d as [|[k v] d IH]; cbn; [discriminate|].
  intros H. inversion H as [|? ? Hkv Hd]; subst.
  destruct (String.eqb_spec k n) as [->|Hn].
  - intros [= <-]. exact Hkv.
  - now apply IH.
Qed.

Lemma consistent_setitem (d : dict.t Record.t) (r : Record.t) :
  Forall (fun kv => Name.value (Record.name (snd kv)) = fst kv) d ->
  Forall (fun kv => Name.value (Record.name (snd kv)) = fst kv)
         (dict.setitem (Name.value (Record.name r)) r d).
Proof.
  induction d as [|[k v] d IH]; cbn.
  - repeat constructor.
  - intros H. inversion H as [|? ? Hkv Hd]; subst.
    destruct (k =? Name.value (Record.name r))%string; constructor; auto.
Qed.

Lemma consistent_delitem (d : dict.t Record.t) (n : string) :
  Forall (fun kv => Name.value (Record.name (snd kv)) = fst kv) d ->
  Forall (fun kv => Name.value (Record.name (snd kv)) = fst kv)
         (dict.delitem n d).
Proof.
  induction d as [|[k v] d IH]; cbn; [trivial|].
  intros H. inversion H as [|? ? Hkv Hd]; subst.
  destruct (k =? n)%string; [assumption | constructor; auto].
Qed.

Lemma consistent_mutate (b : AddressBook.t) (n : string)
  (method : Record.t -> result unit * Record.t) :
  (forall r, Record.name (snd (method r)) = Record.name r) ->
  key_name_consistent b -> key_name_consistent (mutate n method b).
Proof.
  intros Hname Hb. unfold mutate.
  destruct (dict.get n (AddressBook.data b)) as [r|] eqn:E; [|assumption].
  pose proof (consistent_get b n r Hb E) as Hn.
  unfold key_name_consistent, store. cbn [AddressBook.data].
  rewrite <- Hn, <- (Hname r). now apply consistent_setitem.
Qed.

Lemma consistent_apply_op (b : AddressBook.t) (o : op) :
  key_name_consistent b -> key_name_consistent (apply_op b o).
Proof.
  intros Hb. destruct o; cbn [apply_op].
  - now apply consistent_setitem.
  - unfold AddressBook.delete.
    destruct (dict.contains n (AddressBook.data b)); [|assumption].
    now apply consistent_delitem.
  - apply consistent_mutate; [apply name_add_phone | assumption].
  - apply consistent_mutate; [apply name_remove_phone | assumption].
  - apply consistent_mutate; [apply name_edit_phone | assumption].
  - apply consistent_mutate; [apply name_add_birthday | assumption].
Qed.

Lemma consistent_run (ops : list op) (b : AddressBook.t) :
  key_name_consistent b -> key_name_consistent (run ops b).
Proof.
  revert b. induction ops as [|o ops IH]; intros b Hb; cbn; [assumption|].
  apply IH. now apply consistent_apply_op.
Qed.

(** The keys stay distinct as well. *)
Lemma wf_run (ops : list op) (b : AddressBook.t) :
  dict.wf (AddressBook.data b) -> dict.wf (AddressBook.data (run ops b)).
Proof.
  revert b. induction ops as [|o ops IH]; intros b Hb; cbn; [assumption|].
  apply IH. destruct o; cbn [apply_op]; unfold mutate, store.
  - now apply wf_setitem.
  - unfold AddressBook.delete.
    destruct (dict.contains n (AddressBook.data b)); [|assumption].
    now apply wf_delitem.
  - destruct (dict.get n _); [now apply wf_setitem | assumption].
  - destruct (dict.get n _); [now apply wf_setitem | assumption].
  - destruct (dict.get n _); [now apply wf_setitem | assumption].
  - destruct (dict.get n _); [now apply wf_setitem | assumption].
Qed.

(** C9.  After any sequence of [add_record], [delete] and the phone and
    birthday methods of the records in the book, starting from the empty
    book, every key of the book maps to a record whose name is that key. *)
Theorem C9_key_name_consistent (ops : list op) :
  key_name_consistent (run ops AddressBook.init).
Proof. apply consistent_run. constructor. Qed.

(** The loop of [main] keeps the records under their names too. *)
Lemma consistent_store (b : AddressBook.t) (n : string) (r r' : Record.t) :
  key_name_consistent b ->
  dict.get n (AddressBook.data b) = Some r ->
  Record.name r' = Record.name r ->
  key_name_consistent (store n r' b).
Proof.
  intros Hb Hget Hname. pose proof (consistent_get b n r Hb Hget) as Hn.
  unfold key_name_consistent, store. cbn [AddressBook.data].
  rewrite <- Hn, <- Hname. now apply consistent_setitem.
Qed.

Ltac case_matches :=
  repeat match goal with
         | |- context [match ?x with _ => _ end] =>
             lazymatch x with
             | context [match _ with _ => _ end] => fail
             | Record.add_phone ?p ?r =>
                 pose proof (name_add_phone p r);
                 destruct (Record.add_phone p r) as [[] ?] eqn:?
             | Record.edit_phone ?o ?p ?r =>
                 pose proof (name_edit_phone o p r);
                 destruct (Record.edit_phone o p r) as [[] ?] eqn:?
             | Record.add_birthday ?p ?r =>
                 pose proof (name_add_birthday p r);
                 destruct (Record.add_birthday p r) as [[] ?] eqn:?
             | _ => destruct x eqn:?
             end
         end.

Lemma consistent_add_birthday (args : list string) (st : state) :
  key_name_consistent (book st) ->
  key_name_consistent (book (snd (add_birthday args st))).
Proof.
  intros Hb. unfold add_birthday, input_error.
  case_matches; cbn [snd book fst] in *; try assumption;
    eapply consistent_store; eassumption.
Qed.

Lemma book_show_birthday (pads : bool) (args : list string) (st : state) :
  book (snd (show_birthday pads args st)) = book st.
Proof. unfold show_birthday, input_error. now case_matches. Qed.

Lemma book_birthdays (pads : bool) (clock : nat -> datetime.t)
  (args : list string) (st : state) :
  book (snd (birthdays pads clock args st)) = book st.
Proof. unfold birthdays, input_error. now case_matches. Qed.

Lemma consistent_step (pads : bool) (clock : nat -> datetime.t)
  (user_input : string) (st : state) :
  key_name_consistent (book st) ->
  key_name_consistent (book (snd (step pads clock user_input st))).
Proof.
  intros Hb. unfold step.
  repeat match goal with
         | |- context [match ?x with _ => _ end] =>
             lazymatch x with
             | context [match _ with _ => _ end] => fail
             | add_birthday ?a ?s =>
                 pose proof (consistent_add_birthday a s Hb);
                 destruct (add_birthday a s)
             | show_birthday ?p ?a ?s =>
                 pose proof (book_show_birthday p a s);
                 destruct (show_birthday p a s)
             | birthdays ?p ?c ?a ?s =>
                 pose proof (book_birthdays p c a s);
                 destruct (birthdays p c a s)
             | Record.add_phone ?p ?r =>
                 pose proof (name_add_phone p r);
                 destruct (Record.add_phone p r) as [[] ?] eqn:?
             | Record.edit_phone ?o ?p ?r =>
                 pose proof (name_edit_phone o p r);
                 destruct (Record.edit_phone o p r) as [[] ?] eqn:?
             | _ => destruct x eqn:?
             end
         end; cbn [snd book fst] in *; try assumption;
    try congruence;
    try (eapply consistent_store; eassumption).
  all: subst; apply consistent_setitem; assumption.
Qed.

Lemma consistent_loop (pads : bool) (clock : nat -> datetime.t)
  (lines : list string) (st : state) :
  key_name_consistent (book st) ->
  key_name_consistent (book (snd (loop pads clock lines st))).
Proof.
  revert st. induction lines as [|line lines IH]; intros st Hb; cbn [loop].
  - assumption.
  - pose proof (consistent_step pads clock line st Hb) as Hs.
    destruct (step pads clock line st) as [[out [[]|e]] st']; cbn [snd] in *.
    + specialize (IH st' Hs).
      now destruct (loop pads clock lines st') as [[? ?] ?].
    + assumption.
    + assumption.
Qed.

Lemma consistent_main (pads : bool) (clock : nat -> datetime.t)
  (lines : list string) :
  key_name_consistent (book (snd (main pads clock lines))).
Proof.
  unfold main.
  pose proof (consistent_loop pads clock lines (mk_state AddressBook.init O))
    as H.
  destruct (loop pads clock lines _) as [[? ?] ?]. apply H. constructor.
Qed.

(** ** The command loop *)

Lemma lstrip_spaces (s : string) : all_chars is_space s = true -> lstrip s = "".
Proof.
  induction s as [|c s IH]; cbn; [reflexivity|].
  destruct (is_space c); [exact IH | discriminate].
Qed.

(** C10.  On an empty line and on a line of white space only, [parse_input]
    raises the [IndexError] of the empty list of words; the exception leaves
    the loop of [main], which prints nothing for that line and reads no
    further line. *)
Theorem C10_blank_line (pads : bool) (clock : nat -> datetime.t)
  (user_input : string) (rest : list string) (st : state) :
  all_chars is_space user_input = true ->
  parse_input user_input = Raise index_error
  /\ loop pads clock (user_input :: rest) st = ([], Raise index_error, st).
Proof.
  intros H.
  assert (Hp : parse_input user_input = Raise index_error).
  { unfold parse_input, strip. now rewrite (lstrip_spaces _ H). }
  split; [exact Hp|]. cbn [loop]. unfold step. now rewrite Hp.
Qed.

Lemma C10_blank_line_witness :
  parse_input "   " = Raise index_error
  /\ loop true (fun _ => datetime.mk 2024 6 10 0 0 0 0)
          ["   "; "hello"] (mk_state AddressBook.init O)
     = ([], Raise index_error, mk_state AddressBook.init O).
Proof.
  apply (C10_blank_line true (fun _ => datetime.mk 2024 6 10 0 0 0 0)
           "   " ["hello"] (mk_state AddressBook.init O)).
  reflexivity.
Defined.

(** C6.  From the empty book, [add Alice 0123456789] creates the contact,
    [add Alice 9999999999] appends to it, so that Alice has the two phones in
    that order, and [phone Alice] prints them joined by a comma and a
    space. *)
Theorem C6_add_twice_then_phone (pads : bool) (clock : nat -> datetime.t) :
  let alice l := Record.mk (Name.mk "Alice") (map Phone.mk l) None in
  let st l := mk_state (AddressBook.mk [("Alice", alice l)]) O in
  step pads clock "add Alice 0123456789" (mk_state AddressBook.init O)
  = (["Created new contact Alice with phone 0123456789."%string],
     Ok Continue, st ["0123456789"%string])
  /\ step pads clock "add Alice 9999999999" (st ["0123456789"%string])
     = (["Added phone 9999999999 to existing contact Alice."%string],
        Ok Continue, st ["0123456789"%string; "9999999999"%string])
  /\ step pads clock "phone Alice"
          (st ["0123456789"%string; "9999999999"%string])
     = (["Alice's phone numbers: 0123456789, 9999999999."%string],
        Ok Continue, st ["0123456789"%string; "9999999999"%string])
  /\ main pads clock
          ["add Alice 0123456789"%string; "add Alice 9999999999"%string;
           "phone Alice"%string; "exit"%string]
     = (["Welcome to the assistant bot!"%string;
         "Created new contact Alice with phone 0123456789."%string;
         "Added phone 9999999999 to existing contact Alice."%string;
         "Alice's phone numbers: 0123456789, 9999999999."%string;
         "Good bye!"%string],
        Ok tt, st ["0123456789"%string; "9999999999"%string]).
Proof. repeat split. Qed.

(** ** Days to the next birthday *)

Lemma timedelta_days_floor (k a b : Z) :
  -86400 < a <= 0 -> -1000000 < b <= 0 ->
  timedelta.days (timedelta.init k a b)
  = if (a =? 0) && (b =? 0) then k else k - 1.
Proof.
  intros Ha Hb. unfold timedelta.init, timedelta.us_per_day.
  cbn [timedelta.days].
  destruct (Z.eqb_spec a 0) as [->|Ha0];
    [destruct (Z.eqb_spec b 0) as [->|Hb0]|];
    cbn [andb]; symmetry.
  - apply Z.div_unique with (r := 0); lia.
  - apply Z.div_unique with (r := 86400 * 1000000 + b); lia.
  - apply Z.div_unique with (r := 86400 * 1000000 + (a * 1000000 + b)); lia.
Qed.

Lemma days_to_birthday_this_year (today : datetime.t) (r : Record.t)
  (b : Birthday.t) (next_birthday : datetime.t) :
  Record.birthday r = Some b ->
  datetime.replace_year (datetime.year today) (Birthday.value b)
  = Ok next_birthday ->
  datetime.ltb next_birthday today = false ->
  Record.days_to_birthday today r
  = Ok (Some (timedelta.days (datetime_sub next_birthday today))).
Proof.
  intros Hb Hr Hlt. unfold Record.days_to_birthday.
  rewrite Hb, Hr. cbn [bind]. now rewrite Hlt.
Qed.

Lemma days_to_birthday_next_year (today : datetime.t) (r : Record.t)
  (b : Birthday.t) (this_year next_birthday : datetime.t) :
  Record.birthday r = Some b ->
  datetime.replace_year (datetime.year today) (Birthday.value b)
  = Ok this_year ->
  datetime.ltb this_year today = true ->
  datetime.replace_year (datetime.year today + 1) this_year
  = Ok next_birthday ->
  Record.days_to_birthday today r
  = Ok (Some (timedelta.days (datetime_sub next_birthday today))).
Proof.
  intros Hb Hr Hlt Hn. unfold Record.days_to_birthday.
  rewrite Hb, Hr. cbn [bind]. rewrite Hlt, Hn. reflexivity.
Qed.

(** C1 (what the code does).  With the birthday 15.06.1990,
    [days_to_birthday] returns the 5 of the claim only while the clock reads
    10.06.2024 at midnight exactly, and 4 at every later time of that day;
    it returns 360 only while the clock reads 20.06.2024 at midnight exactly,
    and 359 at every later time of that day.  On 15.06.2024, the birthday
    itself, it returns 0 at midnight exactly and 364 at every later time:
    the birthday is composed at midnight, and the clock is read with its
    time of day. *)
Theorem C1_days_to_birthday (n : string) (h mi s us : Z) :
  valid_time h mi s us ->
  let r := snd (Record.add_birthday "15.06.1990" (Record.init n)) in
  Record.days_to_birthday (datetime.mk 2024 6 10 h mi s us) r
  = Ok (Some (if is_midnight h mi s us then 5 else 4))
  /\ Record.days_to_birthday (datetime.mk 2024 6 20 h mi s us) r
     = Ok (Some (if is_midnight h mi s us then 360 else 359))
  /\ Record.days_to_birthday (datetime.mk 2024 6 15 h mi s us) r
     = Ok (Some (if is_midnight h mi s us then 0 else 364)).
Proof.
  intros (Hh & Hmi & Hs & Hus) r.
  assert (Hmid : is_midnight h mi s us
                 = (0 + 0 * 60 + 0 * 3600 - (s + mi * 60 + h * 3600) =? 0)
                   && (0 - us =? 0)).
  { unfold is_midnight.
    destruct (Z.eqb_spec h 0), (Z.eqb_spec mi 0), (Z.eqb_spec s 0),
      (Z.eqb_spec us 0); cbn [andb]; symmetry;
      rewrite ?andb_true_iff, ?andb_false_iff, ?Z.eqb_eq, ?Z.eqb_neq; lia. }
  split; [|split].
  - rewrite (days_to_birthday_this_year _ r
               (Birthday.mk (datetime.mk 1990 6 15 0 0 0 0))
               (datetime.mk 2024 6 15 0 0 0 0)) by reflexivity.
    unfold datetime_sub, datetime.toordinal.
    cbn [datetime.year datetime.month datetime.day datetime.hour
         datetime.minute datetime.second datetime.microsecond].
    rewrite timedelta_days_floor by lia. rewrite <- Hmid.
    now destruct (is_midnight h mi s us).
  - rewrite (days_to_birthday_next_year _ r
               (Birthday.mk (datetime.mk 1990 6 15 0 0 0 0))
               (datetime.mk 2024 6 15 0 0 0 0)
               (datetime.mk 2025 6 15 0 0 0 0)) by reflexivity.
    unfold datetime_sub, datetime.toordinal.
    cbn [datetime.year datetime.month datetime.day datetime.hour
         datetime.minute datetime.second datetime.microsecond].
    rewrite timedelta_days_floor by lia. rewrite <- Hmid.
    now destruct (is_midnight h mi s us).
  - assert (Hlt : datetime.ltb (datetime.mk 2024 6 15 0 0 0 0)
                               (datetime.mk 2024 6 15 h mi s us)
                  = negb (is_midnight h mi s us)).
    { unfold datetime.ltb, datetime.fields, is_midnight.
      cbn [datetime.year datetime.month datetime.day datetime.hour
           datetime.minute datetime.second datetime.microsecond
           datetime.cmp].
      rewrite !Z.compare_refl.
      destruct (Z.compare_spec 0 h), (Z.eqb_spec h 0); try lia;
        try reflexivity.
      destruct (Z.compare_spec 0 mi), (Z.eqb_spec mi 0); try lia;
        try reflexivity.
      destruct (Z.compare_spec 0 s), (Z.eqb_spec s 0); try lia;
        try reflexivity.
      destruct (Z.compare_spec 0 us), (Z.eqb_spec us 0); try lia;
        reflexivity. }
    destruct (is_midnight h mi s us) eqn:M; cbn [negb] in Hlt.
    + rewrite (days_to_birthday_this_year _ r
                 (Birthday.mk (datetime.mk 1990 6 15 0 0 0 0))
                 (datetime.mk 2024 6 15 0 0 0 0))
        by (reflexivity || exact Hlt).
      unfold datetime_sub, datetime.toordinal.
      cbn [datetime.year datetime.month datetime.day datetime.hour
           datetime.minute datetime.second datetime.microsecond].
      rewrite timedelta_days_floor by lia. now rewrite <- Hmid.
    + rewrite (days_to_birthday_next_year _ r
                 (Birthday.mk (datetime.mk 1990 6 15 0 0 0 0))
                 (datetime.mk 2024 6 15 0 0 0 0)
                 (datetime.mk 2025 6 15 0 0 0 0))
        by (reflexivity || exact Hlt).
      unfold datetime_sub, datetime.toordinal.
      cbn [datetime.year datetime.month datetime.day datetime.hour
           datetime.minute datetime.second datetime.microsecond].
      rewrite timedelta_days_floor by lia. now rewrite <- Hmid.
Qed.

Lemma C1_days_to_birthday_witness :
  let r := snd (Record.add_birthday "15.06.1990" (Record.init "Ann")) in
  Record.days_to_birthday (datetime.mk 2024 6 10 12 0 0 0) r = Ok (Some 4)
  /\ Record.days_to_birthday (datetime.mk 2024 6 20 12 0 0 0) r
     = Ok (Some 359)
  /\ Record.days_to_birthday (datetime.mk 2024 6 15 12 0 0 0) r
     = Ok (Some 364).
Proof.
  apply (C1_days_to_birthday "Ann" 12 0 0 0). unfold valid_time. lia.
Defined.

(** At midnight the method returns the 5 and the 360 of the claim; at noon
    of 10.06.2024 it returns 4, not 5, and at noon of 20.06.2024 it returns
    359, not 360. *)
Example days_to_birthday_midnight_and_noon :
  let r := snd (Record.add_birthday "15.06.1990" (Record.init "Ann")) in
  Record.days_to_birthday (datetime.mk 2024 6 10 0 0 0 0) r = Ok (Some 5)
  /\ Record.days_to_birthday (datetime.mk 2024 6 20 0 0 0 0) r
     = Ok (Some 360)
  /\ Record.days_to_birthday (datetime.mk 2024 6 10 12 0 0 0) r
     <> Ok (Some 5)
  /\ Record.days_to_birthday (datetime.mk 2024 6 20 12 0 0 0) r
     <> Ok (Some 360).
Proof. cbv zeta. repeat split; try reflexivity; discriminate. Qed.

Lemma leap_then_next_not_leap (y : Z) :
  datetime.is_leap y = true -> datetime.is_leap (y + 1) = false.
Proof.
  unfold datetime.is_leap. intros H.
  apply andb_true_iff in H. destruct H as [H _]. apply Z.eqb_eq in H.
  apply andb_false_iff. left. apply Z.eqb_neq.
  Z.div_mod_to_equations. lia.
Qed.

Lemma replace_year_feb29 (y : Z) (dt : datetime.t) :
  datetime.month dt = 2 -> datetime.day dt = 29 ->
  1 <= y <= 9999 -> datetime.is_leap y = false ->
  datetime.replace_year y dt
  = Raise (ValueError "day is out of range for month").
Proof.
  intros Hm Hd Hy Hleap.
  unfold datetime.replace_year, datetime.check_date_fields,
    datetime.days_in_month, datetime.MINYEAR, datetime.MAXYEAR.
  rewrite Hm, Hd, Hleap.
  replace (1 <=? y) with true by (symmetry; apply Z.leb_le; lia).
  replace (y <=? 9999) with true by (symmetry; apply Z.leb_le; lia).
  reflexivity.
Qed.

(** C8 (what the code does).  For a birthday on 29 February and a clock
    whose year is not a leap year, [days_to_birthday] raises the
    [ValueError] of [replace]: it returns no number. *)
Theorem C8_feb29_raises (today : datetime.t) (r : Record.t) (b : Birthday.t) :
  Record.birthday r = Some b ->
  datetime.month (Birthday.value b) = 2 ->
  datetime.day (Birthday.value b) = 29 ->
  1 <= datetime.year today <= 9999 ->
  datetime.is_leap (datetime.year today) = false ->
  Record.days_to_birthday today r
  = Raise (ValueError "day is out of range for month").
Proof.
  intros Hb Hm Hd Hy Hleap. unfold Record.days_to_birthday.
  now rewrite Hb, replace_year_feb29.
Qed.

Lemma C8_feb29_raises_witness :
  Record.days_to_birthday (datetime.mk 2023 6 1 9 30 0 0)
    (snd (Record.add_birthday "29.02.2000" (Record.init "Bob")))
  = Raise (ValueError "day is out of range for month").
Proof.
  apply (C8_feb29_raises (datetime.mk 2023 6 1 9 30 0 0) _
           (Birthday.mk (datetime.mk 2000 2 29 0 0 0 0)));
    cbn; try reflexivity; lia.
Defined.

(** The same in a leap year once 29 February is over: the year after is
    not a leap year. *)
Lemma feb29_raises_after_leap_day (today : datetime.t) (r : Record.t)
  (b : Birthday.t) (this_year : datetime.t) :
  Record.birthday r = Some b ->
  datetime.month (Birthday.value b) = 2 ->
  datetime.day (Birthday.value b) = 29 ->
  datetime.year today < 9999 ->
  datetime.replace_year (datetime.year today) (Birthday.value b)
  = Ok this_year ->
  datetime.ltb this_year today = true ->
  Record.days_to_birthday today r
  = Raise (ValueError "day is out of range for month").
Proof.
  intros Hb Hm Hd Hy Hr Hlt. unfold Record.days_to_birthday.
  rewrite Hb, Hr. cbn [bind]. rewrite Hlt.
  assert (Hthis : datetime.month this_year = 2 /\ datetime.day this_year = 29
                  /\ 1 <= datetime.year today
                  /\ datetime.is_leap (datetime.year today) = true).
  { revert Hr. unfold datetime.replace_year, datetime.check_date_fields,
      datetime.days_in_month, datetime.MINYEAR, datetime.MAXYEAR.
    rewrite Hm, Hd.
    destruct (1 <=? datetime.year today) eqn:E1;
      destruct (datetime.year today <=? 9999) eqn:E2;
      destruct (datetime.is_leap (datetime.year today)) eqn:E3;
      cbn; try discriminate.
    intros [= <-]. cbn. apply Z.leb_le in E1. auto. }
  destruct Hthis as (Hm' & Hd' & Hy1 & Hleap).
  rewrite replace_year_feb29; auto; [lia|].
  now apply leap_then_next_not_leap.
Qed.

(** ** Upcoming birthdays *)

(** While no call of [days_to_birthday] raises, and for a clock that stands
    still at [today], [get_upcoming_birthdays] returns, in the order of the
    book, the entries of exactly the records whose [days_to_birthday] is a
    number that is at most 7. *)
Lemma upcoming_loop_frozen (pads : bool) (today : datetime.t)
  (records : list Record.t) (n : nat) (acc : list entry) :
  Forall (fun r => exists v, Record.days_to_birthday today r = Ok v) records ->
  fst (AddressBook.upcoming_loop pads (fun _ => today) n records acc)
  = Ok (acc ++ flat_map (fun r => if is_upcoming today 7 r
                                  then entry_of pads r else []) records).
Proof.
  revert n acc. induction records as [|r records IH]; intros n acc H.
  - cbn. now rewrite app_nil_r.
  - inversion H as [|? ? [v Hv] Hrest]; subst.
    cbn [AddressBook.upcoming_loop flat_map].
    unfold is_upcoming, entry_of. rewrite Hv.
    destruct (Record.birthday r) as [b|] eqn:Eb.
    + rewrite (IH _ _ Hrest). destruct v as [d|].
      * destruct (d <=? 7); [now rewrite <- app_assoc | reflexivity].
      * reflexivity.
    + rewrite (IH _ _ Hrest).
      unfold Record.days_to_birthday in Hv. rewrite Eb in Hv.
      injection Hv as <-. reflexivity.
Qed.

Lemma upcoming_frozen_clock (pads : bool) (today : datetime.t) (n : nat)
  (b : AddressBook.t) :
  Forall (fun r => exists v, Record.days_to_birthday today r = Ok v)
         (dict.values (AddressBook.data b)) ->
  fst (AddressBook.get_upcoming_birthdays pads (fun _ => today) n b)
  = Ok (flat_map (fun r => if is_upcoming today 7 r
                           then entry_of pads r else [])
                 (dict.values (AddressBook.data b))).
Proof.
  intros H. unfold AddressBook.get_upcoming_birthdays.
  now rewrite upcoming_loop_frozen.
Qed.

(** A record 7 days before its birthday is listed and one 8 days before is
    not. *)
Example upcoming_seven_and_eight (pads : bool) :
  let today := datetime.mk 2024 6 10 0 0 0 0 in
  let st := snd (loop pads (fun _ => today)
                   ["add Ann 0123456789"%string;
                    "add-birthday Ann 17.06.1990"%string;
                    "add Bob 1111111111"%string;
                    "add-birthday Bob 18.06.1985"%string]
                   (mk_state AddressBook.init O)) in
  option_map (Record.days_to_birthday today) (AddressBook.find "Ann" (book st))
  = Some (Ok (Some 7))
  /\ option_map (Record.days_to_birthday today)
                (AddressBook.find "Bob" (book st))
     = Some (Ok (Some 8))
  /\ fst (AddressBook.get_upcoming_birthdays pads (fun _ => today) O (book st))
     = Ok [mk_entry "Ann" ("17.06." ++ year_text pads 1990)%string].
Proof. repeat split. Qed.

(** C3 (what the code does).  With a record whose birthday is 29 February in
    the book and a clock in a year that is not a leap year,
    [get_upcoming_birthdays] raises the [ValueError] of [replace] and returns
    no list, although another record of the book is 4 days before its
    birthday; the command [birthdays] prints the text of the exception. *)
Theorem C3_upcoming_raises_on_feb29 :
  let today := datetime.mk 2023 3 1 0 0 0 0 in
  let clock := fun _ : nat => today in
  let st := snd (loop true clock
                   ["add Ann 0123456789"%string;
                    "add-birthday Ann 05.03.1990"%string;
                    "add Bob 1111111111"%string;
                    "add-birthday Bob 29.02.2000"%string]
                   (mk_state AddressBook.init O)) in
  option_map (Record.days_to_birthday today) (AddressBook.find "Ann" (book st))
  = Some (Ok (Some 4))
  /\ fst (AddressBook.get_upcoming_birthdays true clock O (book st))
     = Raise (ValueError "day is out of range for month")
  /\ fst (birthdays true clock [] st)
     = ["day is out of range for month"%string].
Proof. repeat split. Qed.

(** ** Birthdays: reading and writing dates *)

Lemma append_empty_r (s : string) : (s ++ "")%string = s.
Proof. induction s as [|c s IH]; cbn; [reflexivity | now rewrite IH]. Qed.

Lemma append_assoc (a b c : string) :
  ((a ++ b) ++ c)%string = (a ++ (b ++ c))%string.
Proof. induction a as [|x a IH]; cbn; [reflexivity | now rewrite IH]. Qed.

(** Enumeration of a small non-negative integer. *)
Ltac enum_Z d :=
  destruct d as [|d|d]; try lia;
  do 5 (try (destruct d as [d|d|]; try lia)).

Lemma digit_char_is_digit (k : Z) :
  0 <= k <= 9 -> is_digit (digit_char k) = true.
Proof. intros H. enum_Z k; reflexivity. Qed.

Lemma digit_val_digit_char (k : Z) :
  0 <= k <= 9 -> digit_val (digit_char k) = k.
Proof. intros H. enum_Z k; reflexivity. Qed.

Lemma digit_char_not_space (k : Z) :
  0 <= k <= 9 -> is_space (digit_char k) = false.
Proof. intros H. enum_Z k; reflexivity. Qed.

Lemma group_dot_day (d : Z) (td rest : string) :
  1 <= d <= 31 -> In td (day_texts d) ->
  group_dot re_d (td ++ "." ++ rest)%string = [(td, rest)]
  /\ int td = Ok d.
Proof.
  intros Hd Hin. enum_Z d; cbn in Hin; intuition (subst; split; reflexivity).
Qed.

Lemma group_dot_month (m : Z) (tm rest : string) :
  1 <= m <= 12 -> In tm (month_texts m) ->
  group_dot re_m (tm ++ "." ++ rest)%string = [(tm, rest)]
  /\ int tm = Ok m.
Proof.
  intros Hm Hin. enum_Z m; cbn in Hin; intuition (subst; split; reflexivity).
Qed.

Lemma re_Y_four (a b c d : Z) (rest : string) :
  0 <= a <= 9 -> 0 <= b <= 9 -> 0 <= c <= 9 -> 0 <= d <= 9 ->
  re_match re_Y (four a b c d rest) = [(four a b c d "", rest)].
Proof.
  intros Ha Hb Hc Hd. unfold re_Y, d_, four.
  rewrite !re_match_chr_seq, !digit_char_is_digit by assumption.
  cbn [re_match]. rewrite digit_char_is_digit by assumption. reflexivity.
Qed.

Lemma rstrip_no_space (s : string) :
  all_chars (fun c => negb (is_space c)) s = true -> rstrip s = s.
Proof.
  induction s as [|c s IH]; cbn; [reflexivity|].
  destruct (is_space c); cbn; [discriminate|]. intros H. now rewrite IH.
Qed.

Lemma strip_no_space (s : string) :
  all_chars (fun c => negb (is_space c)) s = true -> strip s = s.
Proof.
  intros H. unfold strip.
  replace (lstrip s) with s; [now apply rstrip_no_space|].
  destruct s as [|c s]; cbn in *; [reflexivity|].
  now destruct (is_space c).
Qed.

Lemma int_four (a b c d : Z) :
  0 <= a <= 9 -> 0 <= b <= 9 -> 0 <= c <= 9 -> 0 <= d <= 9 ->
  int (four a b c d "") = Ok (1000 * a + 100 * b + 10 * c + d).
Proof.
  intros Ha Hb Hc Hd. unfold int. rewrite strip_no_space.
  - unfold four. cbn [int_digits].
    rewrite !digit_char_is_digit, !digit_val_digit_char by assumption.
    f_equal. lia.
  - unfold four. cbn [all_chars].
    now rewrite !digit_char_not_space by assumption.
Qed.

Lemma zfill4_four (y : Z) :
  0 <= y <= 9999 ->
  exists a b c d,
    (0 <= a <= 9 /\ 0 <= b <= 9 /\ 0 <= c <= 9 /\ 0 <= d <= 9)
    /\ zfill4 y = four a b c d ""
    /\ y = 1000 * a + 100 * b + 10 * c + d.
Proof.
  intros Hy.
  exists (y / 100 / 10), (y / 100 mod 10), (y mod 100 / 10), (y mod 100 mod 10).
  split; [|split]; [| reflexivity |]; Z.div_mod_to_equations; lia.
Qed.

Lemma four_zfill4 (a b c d : Z) :
  0 <= a <= 9 -> 0 <= b <= 9 -> 0 <= c <= 9 -> 0 <= d <= 9 ->
  four a b c d "" = zfill4 (1000 * a + 100 * b + 10 * c + d).
Proof.
  intros Ha Hb Hc Hd. unfold zfill4, zfill2, four. cbn [append].
  repeat f_equal; Z.div_mod_to_equations; lia.
Qed.

Lemma init_valid_date (y m d : Z) :
  valid_date y m d -> datetime.init y m d = Ok (datetime.mk y m d 0 0 0 0).
Proof.
  intros (Hy & Hm & Hd).
  unfold datetime.init, datetime.check_date_fields, datetime.MINYEAR,
    datetime.MAXYEAR.
  replace (1 <=? y) with true by (symmetry; apply Z.leb_le; lia).
  replace (y <=? 9999) with true by (symmetry; apply Z.leb_le; lia).
  replace (1 <=? m) with true by (symmetry; apply Z.leb_le; lia).
  replace (m <=? 12) with true by (symmetry; apply Z.leb_le; lia).
  replace (1 <=? d) with true by (symmetry; apply Z.leb_le; lia).
  replace (d <=? datetime.days_in_month y m) with true
    by (symmetry; apply Z.leb_le; lia).
  reflexivity.
Qed.

Lemma days_in_month_le_31 (y m : Z) : datetime.days_in_month y m <= 31.
Proof.
  unfold datetime.days_in_month.
  repeat match goal with
         | |- context [if ?b then _ else _] => destruct b
         end; lia.
Qed.

(** Every text of a date is read by [strptime] as that date. *)
Lemma strptime_date_texts (y m d : Z) (s : string) :
  valid_date y m d -> In s (date_texts y m d) ->
  strptime s = Ok (datetime.mk y m d 0 0 0 0).
Proof.
  intros Hv Hin. pose proof Hv as (Hy & Hm & Hd).
  pose proof (days_in_month_le_31 y m) as H31.
  unfold date_texts in Hin. apply in_flat_map in Hin.
  destruct Hin as (td & Htd & Hin). apply in_map_iff in Hin.
  destruct Hin as (tm & <- & Htm).
  destruct (zfill4_four y) as (a & b & c & e & (Ha & Hb & Hc & He) & Hz & Hyv);
    [lia|].
  unfold strptime, match_format.
  destruct (group_dot_day d td (tm ++ "." ++ zfill4 y)%string) as [-> Hid];
    [lia | assumption |].
  cbn [flat_map snd fst app].
  destruct (group_dot_month m tm (zfill4 y)) as [-> Him]; [lia | assumption |].
  cbn [flat_map snd fst app].
  rewrite Hz, re_Y_four by assumption. cbn [map app fst snd String.eqb].
  rewrite int_four by assumption. rewrite <- Hyv. cbn [bind].
  rewrite Him, Hid. cbn [bind]. now apply init_valid_date.
Qed.

Lemma re_match_sound (r : regex) (s t rest : string) :
  In (t, rest) (re_match r s) -> s = (t ++ rest)%string /\ matches r t.
Proof.
  revert s t rest. induction r as [|p|r1 IH1 r2 IH2|r1 IH1 r2 IH2];
    intros s t rest Hin; cbn [re_match] in Hin.
  - destruct Hin as [[= <- <-]|[]]. now split.
  - destruct s as [|c s]; [destruct Hin|].
    destruct (p c) eqn:Ep; [|destruct Hin].
    destruct Hin as [[= <- <-]|[]]. split; [reflexivity|]. now exists c.
  - apply in_flat_map in Hin. destruct Hin as ([t1 s1] & H1 & Hin).
    apply in_map_iff in Hin. destruct Hin as ([t2 s2] & [= <- <-] & H2).
    cbn [fst snd] in *.
    destruct (IH1 _ _ _ H1) as [-> M1]. destruct (IH2 _ _ _ H2) as [-> M2].
    split; [now rewrite append_assoc|]. now exists t1, t2.
  - apply in_app_or in Hin. destruct Hin as [Hin|Hin].
    + destruct (IH1 _ _ _ Hin) as [-> M]. split; [reflexivity | now left].
    + destruct (IH2 _ _ _ Hin) as [-> M]. split; [reflexivity | now right].
Qed.

Lemma group_dot_sound (r : regex) (s t rest : string) :
  In (t, rest) (group_dot r s) ->
  s = (t ++ "." ++ rest)%string /\ matches r t.
Proof.
  unfold group_dot. intros Hin. apply in_flat_map in Hin.
  destruct Hin as ([t1 s1] & H1 & Hin). apply in_map_iff in Hin.
  destruct Hin as ([t2 s2] & [= <- <-] & H2). cbn [fst snd] in *.
  destruct (re_match_sound _ _ _ _ H1) as [-> M1].
  destruct (re_match_sound _ _ _ _ H2) as [-> (c & -> & Hc)].
  apply Ascii.eqb_eq in Hc. subst c. now split.
Qed.

Lemma char_as_digit (c : ascii) : c = digit_char (code c - 48).
Proof.
  unfold digit_char, code.
  replace (48 + (Z.of_nat (nat_of_ascii c) - 48))
    with (Z.of_nat (nat_of_ascii c)) by lia.
  now rewrite Nat2Z.id, ascii_nat_embedding.
Qed.

Lemma in_range_digit (lo hi : Z) (c : ascii) :
  0 <= lo <= 9 -> 0 <= hi <= 9 ->
  in_range (digit_char lo) (digit_char hi) c = true ->
  exists k, lo <= k <= hi /\ c = digit_char k.
Proof.
  intros Hlo Hhi H. unfold in_range in H. apply andb_true_iff in H.
  destruct H as [H1 H2]. apply Z.leb_le in H1, H2.
  exists (code c - 48). split; [|apply char_as_digit].
  assert (Elo : code (digit_char lo) = 48 + lo) by (enum_Z lo; reflexivity).
  assert (Ehi : code (digit_char hi) = 48 + hi) by (enum_Z hi; reflexivity).
  lia.
Qed.

Ltac digit_of H k :=
  match type of H with
  | in_range "0" "1" ?c = true =>
      destruct (in_range_digit 0 1 c ltac:(lia) ltac:(lia) H) as (k & ? & ->)
  | in_range "1" "2" ?c = true =>
      destruct (in_range_digit 1 2 c ltac:(lia) ltac:(lia) H) as (k & ? & ->)
  | in_range "0" "2" ?c = true =>
      destruct (in_range_digit 0 2 c ltac:(lia) ltac:(lia) H) as (k & ? & ->)
  | in_range "1" "9" ?c = true =>
      destruct (in_range_digit 1 9 c ltac:(lia) ltac:(lia) H) as (k & ? & ->)
  | is_digit ?c = true =>
      destruct (in_range_digit 0 9 c ltac:(lia) ltac:(lia) H) as (k & ? & ->)
  end.

Ltac finish_text :=
  eexists; split; [vm_compute; reflexivity | split; [lia | cbn; auto 6]].

Lemma matches_re_d (t : string) :
  matches re_d t ->
  exists d, int t = Ok d /\ 1 <= d <= 31 /\ In t (day_texts d).
Proof.
  unfold re_d, lit, cls, d_. cbn [matches].
  intros [H|[H|[H|[H|H]]]].
  - destruct H as (t1 & t2 & -> & (c1 & -> & H1) & (c2 & -> & H2)).
    apply Ascii.eqb_eq in H1. subst c1. digit_of H2 k.
    enum_Z k; finish_text.
  - destruct H as (t1 & t2 & -> & (c1 & -> & H1) & (c2 & -> & H2)).
    digit_of H1 k1. digit_of H2 k2.
    enum_Z k1; enum_Z k2; finish_text.
  - destruct H as (t1 & t2 & -> & (c1 & -> & H1) & (c2 & -> & H2)).
    apply Ascii.eqb_eq in H1. subst c1. digit_of H2 k.
    enum_Z k; finish_text.
  - destruct H as (c & -> & H). digit_of H k.
    enum_Z k; finish_text.
  - destruct H as (t1 & t2 & -> & (c1 & -> & H1) & (c2 & -> & H2)).
    apply Ascii.eqb_eq in H1. subst c1. digit_of H2 k.
    enum_Z k; finish_text.
Qed.

Lemma matches_re_m (t : string) :
  matches re_m t ->
  exists m, int t = Ok m /\ 1 <= m <= 12 /\ In t (month_texts m).
Proof.
  unfold re_m, lit, cls. cbn [matches].
  intros [H|[H|H]].
  - destruct H as (t1 & t2 & -> & (c1 & -> & H1) & (c2 & -> & H2)).
    apply Ascii.eqb_eq in H1. subst c1. digit_of H2 k.
    enum_Z k; finish_text.
  - destruct H as (t1 & t2 & -> & (c1 & -> & H1) & (c2 & -> & H2)).
    apply Ascii.eqb_eq in H1. subst c1. digit_of H2 k.
    enum_Z k; finish_text.
  - destruct H as (c & -> & H). digit_of H k.
    enum_Z k; finish_text.
Qed.

Lemma matches_re_Y (t : string) :
  matches re_Y t ->
  exists y, int t = Ok y /\ 0 <= y <= 9999 /\ t = zfill4 y.
Proof.
  unfold re_Y, d_. cbn [matches].
  intros (t1 & t' & -> & (c1 & -> & H1) & t2 & t'' & -> & (c2 & -> & H2)
          & t3 & t4 & -> & (c3 & -> & H3) & (c4 & -> & H4)).
  digit_of H1 a. digit_of H2 b. digit_of H3 c. digit_of H4 d.
  exists (1000 * a + 100 * b + 10 * c + d).
  change (String (digit_char a) "" ++ String (digit_char b) ""
          ++ String (digit_char c) "" ++ String (digit_char d) "")%string
    with (four a b c d "").
  split; [now apply int_four|]. split; [lia | now apply four_zfill4].
Qed.

Lemma init_ok_inv (y m d : Z) (dt : datetime.t) :
  datetime.init y m d = Ok dt ->
  valid_date y m d /\ dt = datetime.mk y m d 0 0 0 0.
Proof.
  unfold datetime.init, datetime.check_date_fields, datetime.MINYEAR,
    datetime.MAXYEAR, valid_date.
  destruct (1 <=? y) eqn:E1; destruct (y <=? 9999) eqn:E2;
    destruct (1 <=? m) eqn:E3; destruct (m <=? 12) eqn:E4;
    destruct (1 <=? d) eqn:E5;
    destruct (d <=? datetime.days_in_month y m) eqn:E6;
    cbn; try discriminate.
  intros [= <-].
  apply Z.leb_le in E1, E2, E3, E4, E5, E6. auto 8.
Qed.

(** What [strptime] reads as a date is one of the texts of that date. *)
Lemma strptime_ok_inv (s : string) (dt : datetime.t) :
  strptime s = Ok dt ->
  exists y m d,
    valid_date y m d /\ In s (date_texts y m d)
    /\ dt = datetime.mk y m d 0 0 0 0.
Proof.
  unfold strptime.
  destruct (match_format s) as [|[[[gd gm] gY] rest] l] eqn:E; [discriminate|].
  assert (Hin : In (gd, gm, gY, rest) (match_format s))
    by (rewrite E; now left).
  clear E. unfold match_format in Hin.
  apply in_flat_map in Hin. destruct Hin as ([td s1] & Hd & Hin).
  apply in_flat_map in Hin. destruct Hin as ([tm s2] & Hm & Hin).
  apply in_map_iff in Hin. destruct Hin as ([tY s3] & [= <- <- <- <-] & HY).
  cbn [fst snd] in *.
  destruct (String.eqb_spec s3 "") as [->|]; [|discriminate].
  destruct (group_dot_sound _ _ _ _ Hd) as [-> Md].
  destruct (group_dot_sound _ _ _ _ Hm) as [-> Mm].
  destruct (re_match_sound _ _ _ _ HY) as [-> MY].
  destruct (matches_re_d _ Md) as (d & Hid & Hdr & Hdt).
  destruct (matches_re_m _ Mm) as (m & Him & Hmr & Hmt).
  destruct (matches_re_Y _ MY) as (y & HiY & Hyr & ->).
  rewrite HiY, Him, Hid. cbn [bind]. intros Hinit.
  destruct (init_ok_inv _ _ _ _ Hinit) as [Hv ->].
  exists y, m, d. split; [assumption|]. split; [|reflexivity].
  unfold date_texts. apply in_flat_map. exists td. split; [assumption|].
  apply in_map_iff. exists tm. split; [|assumption].
  now rewrite append_empty_r.
Qed.

Lemma strptime_raises_value_error (s : string) (e : exn) :
  strptime s = Raise e -> exists msg, e = ValueError msg.
Proof.
  unfold strptime, int, datetime.init, datetime.check_date_fields.
  repeat match goal with
         | |- context [match ?x with _ => _ end] => destruct x; cbn
         end;
    intros [= <-]; eauto.
Qed.

Lemma render_in_date_texts (y m d : Z) :
  In (render_date y m d) (date_texts y m d).
Proof.
  unfold date_texts, render_date, day_texts, month_texts.
  apply in_flat_map. exists (zfill2 d). split; [now left|]. now left.
Qed.

Lemma zfill2_digits (a b : Z) :
  0 <= a <= 9 -> 0 <= b <= 9 ->
  zfill2 (10 * a + b) = String (digit_char a) (String (digit_char b) "").
Proof.
  intros Ha Hb. unfold zfill2. repeat f_equal; Z.div_mod_to_equations; lia.
Qed.

(** [ddmmyyyy] holds of the texts [render_date] writes for the days of the
    calendar, and of no other. *)
Lemma ddmmyyyy_render (s : string) :
  ddmmyyyy s = true ->
  exists y m d, valid_date y m d /\ s = render_date y m d.
Proof.
  unfold ddmmyyyy.
  do 10 (destruct s as [|? s]; try discriminate).
  destruct s; [|discriminate].
  cbn [all_chars]. rewrite !andb_true_iff.
  intros ((((D1 & D2 & M1 & M2 & Y1 & Y2 & Y3 & Y4 & _) & P1) & P2) & Hv).
  apply Ascii.eqb_eq in P1, P2. subst.
  digit_of D1 d1. digit_of D2 d2. digit_of M1 m1. digit_of M2 m2.
  digit_of Y1 y1. digit_of Y2 y2. digit_of Y3 y3. digit_of Y4 y4.
  rewrite !digit_val_digit_char in Hv by assumption.
  exists (1000 * y1 + 100 * y2 + 10 * y3 + y4), (10 * m1 + m2), (10 * d1 + d2).
  split.
  - unfold valid_dateb in Hv. rewrite !andb_true_iff in Hv.
    destruct Hv as (((((A & B) & C) & D) & E) & F).
    apply Z.leb_le in A, B, C, D, E, F. unfold valid_date. auto 8.
  - unfold render_date. rewrite !zfill2_digits by assumption.
    rewrite <- four_zfill4 by assumption. reflexivity.
Qed.

Lemma render_ddmmyyyy (y m d : Z) :
  valid_date y m d -> ddmmyyyy (render_date y m d) = true.
Proof.
  intros Hv. pose proof Hv as (Hy & Hm & Hd).
  pose proof (days_in_month_le_31 y m) as H31.
  destruct (zfill4_four y) as (a & b & c & e & (Ha & Hb & Hc & He) & Hz & Hyv);
    [lia|].
  unfold render_date. rewrite Hz. unfold zfill2, four.
  cbn [append ddmmyyyy all_chars].
  assert (Hdig : forall k, 0 <= k <= 9 -> is_digit (digit_char k) = true)
    by apply digit_char_is_digit.
  rewrite !Hdig, !digit_val_digit_char
    by (assumption || (Z.div_mod_to_equations; lia)).
  cbn [andb Ascii.eqb Bool.eqb].
  replace (10 * (m / 10) + m mod 10) with m by (Z.div_mod_to_equations; lia).
  replace (10 * (d / 10) + d mod 10) with d by (Z.div_mod_to_equations; lia).
  rewrite <- Hyv. unfold valid_dateb.
  rewrite !andb_true_iff, !Z.leb_le. lia.
Qed.

(** From 1000 on, the decimal numeral of a year has four digits. *)
Lemma year_text_from_1000 (y : Z) :
  1000 <= y <= 9999 -> year_text false y = zfill4 y.
Proof.
  intros Hy.
  assert (Hall : forallb (fun n => (year_text false (Z.of_nat n)
                                    =? zfill4 (Z.of_nat n))%string)
                         (seq (Z.to_nat 1000) (Z.to_nat 9000)) = true)
    by (vm_compute; reflexivity).
  rewrite forallb_forall in Hall.
  specialize (Hall (Z.to_nat y)). rewrite Z2Nat.id in Hall by lia.
  apply String.eqb_eq, Hall, in_seq. lia.
Qed.

(** C5 (amended).  A string written DD.MM.YYYY, two digits, two digits and
    four digits, that names a day of the calendar makes a [Birthday] whose
    text is that string again when the year is 1000 or later, and for every
    year where [strftime] pads the year to four digits.  [Birthday] takes
    exactly the texts [strptime] reads as a date, which also are those with
    a day of one digit, alone or after a space, and a month of one digit;
    every other string raises the [ValueError] of the date format. *)
Theorem C5_birthday_texts (s : string) :
  (ddmmyyyy s = true ->
   exists b,
     Birthday.init s = Ok b
     /\ Birthday.str true b = s
     /\ (1000 <= datetime.year (Birthday.value b) -> Birthday.str false b = s))
  /\ (forall y m d,
        valid_date y m d -> In s (date_texts y m d) ->
        Birthday.init s = Ok (Birthday.mk (datetime.mk y m d 0 0 0 0)))
  /\ ((forall y m d, valid_date y m d -> ~ In s (date_texts y m d)) ->
      Birthday.init s = Raise Birthday.birthday_error).
Proof.
  split; [|split].
  - intros H. destruct (ddmmyyyy_render s H) as (y & m & d & Hv & ->).
    exists (Birthday.mk (datetime.mk y m d 0 0 0 0)).
    unfold Birthday.init.
    rewrite (strptime_date_texts y m d) by
      (assumption || apply render_in_date_texts).
    split; [reflexivity|]. split; [reflexivity|].
    cbn [Birthday.value datetime.year]. intros Hy.
    unfold Birthday.str, strftime, render_date.
    cbn [Birthday.value datetime.year datetime.month datetime.day].
    rewrite year_text_from_1000; [reflexivity|]. destruct Hv. lia.
  - intros y m d Hv Hin. unfold Birthday.init.
    now rewrite (strptime_date_texts y m d).
  - intros Hno. unfold Birthday.init.
    destruct (strptime s) as [dt|e] eqn:E.
    + destruct (strptime_ok_inv s dt E) as (y & m & d & Hv & Hin & _).
      now destruct (Hno y m d Hv).
    + destruct (strptime_raises_value_error s e E) as [msg ->]. reflexivity.
Qed.

Lemma C5_birthday_texts_witness :
  (exists b,
     Birthday.init "29.02.2024" = Ok b
     /\ Birthday.str true b = "29.02.2024"%string
     /\ (1000 <= datetime.year (Birthday.value b) ->
         Birthday.str false b = "29.02.2024"%string))
  /\ Birthday.init " 5.6.1990"
     = Ok (Birthday.mk (datetime.mk 1990 6 5 0 0 0 0)).
Proof.
  destruct (C5_birthday_texts "29.02.2024") as (H1 & _).
  destruct (C5_birthday_texts " 5.6.1990") as (_ & H2 & _).
  split.
  - apply H1. reflexivity.
  - apply (H2 1990 6 5).
    + unfold valid_date. cbn. lia.
    + cbn. repeat first [left; reflexivity | right].
Defined.

(** ["5.6.1990"] is not written DD.MM.YYYY, and [Birthday] takes it: its text
    afterwards is ["05.06.1990"].  And where [strftime] does not pad the
    year, ["05.01.0990"], which is written DD.MM.YYYY, comes back as
    ["05.01.990"]. *)
Lemma C5_counterexample :
  (ddmmyyyy "5.6.1990" = false
   /\ Birthday.init "5.6.1990"
      = Ok (Birthday.mk (datetime.mk 1990 6 5 0 0 0 0))
   /\ Birthday.init "5.6.1990" <> Raise Birthday.birthday_error
   /\ Birthday.str true (Birthday.mk (datetime.mk 1990 6 5 0 0 0 0))
      = "05.06.1990"%string)
  /\ (ddmmyyyy "05.01.0990" = true
      /\ Birthday.init "05.01.0990"
         = Ok (Birthday.mk (datetime.mk 990 1 5 0 0 0 0))
      /\ Birthday.str false (Birthday.mk (datetime.mk 990 1 5 0 0 0 0))
         = "05.01.990"%string).
Proof. repeat split. discriminate. Qed.

(** * Further properties *)

(** ** The phones of a record *)

Lemma remove_loop_absent (phone : string) (l : list Phone.t) :
  has_phone phone l = false ->
  Record.remove_loop phone l
  = (Raise (ValueError "Phone number not found."), l).
Proof.
  induction l as [|p l IH]; cbn; [reflexivity|].
  destruct (Phone.value p =? phone)%string; cbn; [discriminate|].
  intros H. now rewrite (IH H).
Qed.

Lemma remove_loop_first (l1 l2 : list Phone.t) (p : Phone.t) :
  has_phone (Phone.value p) l1 = false ->
  Record.remove_loop (Phone.value p) (l1 ++ p :: l2) = (Ok tt, l1 ++ l2).
Proof.
  induction l1 as [|q l1 IH]; cbn.
  - now rewrite String.eqb_refl.
  - destruct (Phone.value q =? Phone.value p)%string; cbn; [discriminate|].
    intros H. now rewrite (IH H).
Qed.

Lemma add_phone_cases (phone : string) (r : Record.t) :
  Record.add_phone phone r
  = if ten_digits phone
    then (Ok tt, Record.mk (Record.name r)
                           (Record.phones r ++ [Phone.mk phone])
                           (Record.birthday r))
    else (Raise Phone.phone_error, r).
Proof.
  unfold Record.add_phone, Phone.init, Phone.set_phone.
  rewrite pattern_ten_digits. now destruct (ten_digits phone).
Qed.

(** X1.  [add_phone] with ten decimal digits appends a phone with that value
    after the phones the record has and changes nothing else; with any other
    string it raises the [ValueError] of the phone format and the record is
    as before. *)
Theorem X1_add_phone (phone : string) (r : Record.t) :
  if ten_digits phone
  then Record.add_phone phone r
       = (Ok tt, Record.mk (Record.name r)
                           (Record.phones r ++ [Phone.mk phone])
                           (Record.birthday r))
  else Record.add_phone phone r = (Raise Phone.phone_error, r).
Proof. rewrite add_phone_cases. now destruct (ten_digits phone). Qed.

(** X2.  [remove_phone] removes the first phone whose value is the given
    string and keeps the others in their order; when no phone has that value
    it raises the [ValueError] of the missing phone and the record is as
    before. *)
Theorem X2_remove_phone (r : Record.t) :
  (forall l1 p l2,
     Record.phones r = l1 ++ p :: l2 ->
     has_phone (Phone.value p) l1 = false ->
     Record.remove_phone (Phone.value p) r
     = (Ok tt, Record.set_phones (l1 ++ l2) r))
  /\ (forall phone,
        has_phone phone (Record.phones r) = false ->
        Record.remove_phone phone r
        = (Raise (ValueError "Phone number not found."), r)).
Proof.
  split.
  - intros l1 p l2 Hl Habs. unfold Record.remove_phone.
    now rewrite Hl, remove_loop_first.
  - intros phone Habs. unfold Record.remove_phone.
    rewrite remove_loop_absent by assumption. now rewrite set_phones_same.
Qed.

Lemma X2_remove_phone_witness :
  let r := Record.mk (Name.mk "Ann")
             [Phone.mk "0000000000"; Phone.mk "1111111111";
              Phone.mk "1111111111"] None in
  Record.remove_phone "1111111111" r
  = (Ok tt, Record.set_phones
              [Phone.mk "0000000000"; Phone.mk "1111111111"] r)
  /\ Record.remove_phone "2222222222" r
     = (Raise (ValueError "Phone number not found."), r).
Proof.
  intros r. destruct (X2_remove_phone r) as [Hrm Habs]. split.
  - apply (Hrm [Phone.mk "0000000000"] (Phone.mk "1111111111")
               [Phone.mk "1111111111"]); reflexivity.
  - apply (Habs "2222222222"). reflexivity.
Defined.

(** X3.  Adding a ten-digit number that the record does not have and then
    removing it gives the record back. *)
Theorem X3_add_then_remove_phone (phone : string) (r : Record.t) :
  ten_digits phone = true ->
  has_phone phone (Record.phones r) = false ->
  Record.remove_phone phone (snd (Record.add_phone phone r)) = (Ok tt, r).
Proof.
  intros Hd Habs. rewrite add_phone_cases, Hd. cbn [snd].
  unfold Record.remove_phone. cbn [Record.phones].
  change phone with (Phone.value (Phone.mk phone)) at 1.
  rewrite remove_loop_first by assumption.
  rewrite app_nil_r. now destruct r.
Qed.

Lemma X3_add_then_remove_phone_witness :
  let r := Record.mk (Name.mk "Ann") [Phone.mk "0000000000"] None in
  Record.remove_phone "1111111111" (snd (Record.add_phone "1111111111" r))
  = (Ok tt, r).
Proof.
  intros r. apply (X3_add_then_remove_phone "1111111111" r); reflexivity.
Defined.

(** ** Birthdays of a record *)

(** X4.  What [Birthday] accepts is a day of the calendar, stored at
    midnight, and the string is one of the texts of that day. *)
Theorem X4_birthday_is_calendar_day (s : string) (b : Birthday.t) :
  Birthday.init s = Ok b ->
  exists y m d,
    valid_date y m d
    /\ Birthday.value b = datetime.mk y m d 0 0 0 0
    /\ In s (date_texts y m d).
Proof.
  unfold Birthday.init. destruct (strptime s) as [dt|e] eqn:E.
  - intros [= <-].
    destruct (strptime_ok_inv s dt E) as (y & m & d & H1 & H2 & H3).
    exists y, m, d. auto.
  - now destruct e.
Qed.

Lemma X4_birthday_is_calendar_day_witness :
  exists y m d,
    valid_date y m d
    /\ Birthday.value (Birthday.mk (datetime.mk 2000 2 29 0 0 0 0))
       = datetime.mk y m d 0 0 0 0
    /\ In "29.2.2000"%string (date_texts y m d).
Proof.
  apply (X4_birthday_is_calendar_day "29.2.2000"). reflexivity.
Defined.

(** X5.  The text of a birthday is written DD.MM.YYYY and reads back as the
    same birthday, where the year is written with four digits: on a platform
    that pads the year, and from the year 1000 on everywhere. *)
Theorem X5_birthday_text_reads_back (s : string) (b : Birthday.t) :
  Birthday.init s = Ok b ->
  ddmmyyyy (Birthday.str true b) = true
  /\ Birthday.init (Birthday.str true b) = Ok b
  /\ (1000 <= datetime.year (Birthday.value b) ->
      Birthday.init (Birthday.str false b) = Ok b).
Proof.
  intros H. unfold Birthday.init in H.
  destruct (strptime s) as [dt|e] eqn:E; [|now destruct e].
  injection H as <-.
  destruct (strptime_ok_inv s dt E) as (y & m & d & Hv & _ & ->).
  assert (Hstr : Birthday.str true (Birthday.mk (datetime.mk y m d 0 0 0 0))
                 = render_date y m d) by reflexivity.
  assert (Hinit : Birthday.init (render_date y m d)
                  = Ok (Birthday.mk (datetime.mk y m d 0 0 0 0))).
  { unfold Birthday.init.
    now rewrite (strptime_date_texts y m d _ Hv (render_in_date_texts y m d)). }
  rewrite Hstr. split; [now apply render_ddmmyyyy|]. split; [exact Hinit|].
  cbn [Birthday.value datetime.year]. intros Hy.
  replace (Birthday.str false (Birthday.mk (datetime.mk y m d 0 0 0 0)))
    with (render_date y m d); [exact Hinit|].
  unfold Birthday.str, strftime, render_date.
  cbn [Birthday.value datetime.year datetime.month datetime.day].
  rewrite year_text_from_1000; [reflexivity|]. destruct Hv. lia.
Qed.

Lemma X5_birthday_text_reads_back_witness :
  let b := Birthday.mk (datetime.mk 1990 6 5 0 0 0 0) in
  ddmmyyyy (Birthday.str true b) = true
  /\ Birthday.init (Birthday.str true b) = Ok b
  /\ (1000 <= datetime.year (Birthday.value b) ->
      Birthday.init (Birthday.str false b) = Ok b).
Proof.
  apply (X5_birthday_text_reads_back " 5.6.1990"). reflexivity.
Defined.

(** X6.  [add_birthday] with a text of a day of the calendar sets the
    birthday to that day, whatever birthday the record had, and keeps the
    name and the phones; with any other string it raises the [ValueError] of
    the date format and the record keeps the birthday it had. *)
Theorem X6_add_birthday (s : string) (r : Record.t) :
  (forall y m d,
     valid_date y m d -> In s (date_texts y m d) ->
     Record.add_birthday s r
     = (Ok tt, Record.mk (Record.name r) (Record.phones r)
                 (Some (Birthday.mk (datetime.mk y m d 0 0 0 0)))))
  /\ ((forall y m d, valid_date y m d -> ~ In s (date_texts y m d)) ->
      Record.add_birthday s r = (Raise Birthday.birthday_error, r)).
Proof.
  unfold Record.add_birthday, Birthday.init. split.
  - intros y m d Hv Hin. now rewrite (strptime_date_texts y m d).
  - intros Hno. destruct (strptime s) as [dt|e] eqn:E.
    + destruct (strptime_ok_inv s dt E) as (y & m & d & Hv & Hin & _).
      now destruct (Hno y m d Hv).
    + destruct (strptime_raises_value_error s e E) as [msg ->]. reflexivity.
Qed.

Lemma X6_add_birthday_witness :
  let r := Record.mk (Name.mk "Ann") []
             (Some (Birthday.mk (datetime.mk 1990 6 5 0 0 0 0))) in
  Record.add_birthday "01.12.1991" r
  = (Ok tt, Record.mk (Name.mk "Ann") []
              (Some (Birthday.mk (datetime.mk 1991 12 1 0 0 0 0))))
  /\ Record.add_birthday "1991-12-01" r = (Raise Birthday.birthday_error, r).
Proof.
  intros r. destruct (X6_add_birthday "01.12.1991" r) as [Hok _].
  destruct (X6_add_birthday "1991-12-01" r) as [_ Hbad]. split.
  - apply (Hok 1991 12 1).
    + unfold valid_date. cbn. lia.
    + cbn. auto.
  - apply Hbad. intros y m d Hv Hin.
    unfold date_texts in Hin. apply in_flat_map in Hin.
    destruct Hin as (td & Htd & Hin). apply in_map_iff in Hin.
    destruct Hin as (tm & Heq & Htm).
    assert (Hlen : (String.length td <= 3)%nat).
    { unfold day_texts in Htd. destruct (d <? 10); cbn in Htd;
        intuition (subst; cbn; lia). }
    destruct td as [|c1 [|c2 [|c3 [|c4 td]]]]; cbn in Hlen; try lia;
      cbn in Heq; discriminate.
Defined.

(** ** Days to the next birthday, in general *)

Lemma days_before_year_next (y : Z) :
  datetime.days_before_year (y + 1)
  = datetime.days_before_year y + 365 + leap_day y.
Proof.
  unfold datetime.days_before_year, leap_day, datetime.is_leap.
  replace (y + 1 - 1) with y by lia.
  destruct (Z.eqb_spec (y mod 4) 0), (Z.eqb_spec (y mod 100) 0),
    (Z.eqb_spec (y mod 400) 0); cbn [andb orb negb];
    Z.div_mod_to_equations; lia.
Qed.

Lemma days_in_month_bounds (y m : Z) : 28 <= datetime.days_in_month y m <= 31.
Proof.
  unfold datetime.days_in_month.
  repeat match goal with
         | |- context [if ?b then _ else _] => destruct b
         end; lia.
Qed.

Lemma days_before_month_mono (y m m' : Z) :
  1 <= m -> m < m' -> m' <= 12 ->
  datetime.days_before_month y m + datetime.days_in_month y m
  <= datetime.days_before_month y m'.
Proof.
  intros H1 H2 H3. enum_Z m; enum_Z m'; try lia;
    unfold datetime.days_before_month, datetime.days_in_month;
    destruct (datetime.is_leap y); apply Z.leb_le; reflexivity.
Qed.

Lemma days_before_month_range (y m : Z) :
  1 <= m <= 12 ->
  0 <= datetime.days_before_month y m
  /\ datetime.days_before_month y m + datetime.days_in_month y m
     <= 365 + leap_day y.
Proof.
  intros H. enum_Z m;
    unfold datetime.days_before_month, datetime.days_in_month, leap_day;
    destruct (datetime.is_leap y); split; apply Z.leb_le; reflexivity.
Qed.

Lemma days_before_month_next_year (y m : Z) :
  1 <= m <= 12 ->
  datetime.days_before_month (y + 1) m
  = datetime.days_before_month y m
    + (if 2 <? m then leap_day (y + 1) - leap_day y else 0).
Proof.
  intros H. enum_Z m; unfold datetime.days_before_month, leap_day;
    destruct (datetime.is_leap y), (datetime.is_leap (y + 1)); reflexivity.
Qed.

Lemma leap_day_range (y : Z) :
  0 <= leap_day y <= 1 /\ leap_day y + leap_day (y + 1) <= 1.
Proof.
  unfold leap_day. destruct (datetime.is_leap y) eqn:E.
  - rewrite (leap_then_next_not_leap y E). lia.
  - destruct (datetime.is_leap (y + 1)); lia.
Qed.

(** A day of a month other than 29 February is a day of that month in every
    year. *)
Lemma day_in_every_year (y y' m d : Z) :
  1 <= d <= datetime.days_in_month y m -> ~ (m = 2 /\ d = 29) ->
  1 <= d <= datetime.days_in_month y' m.
Proof.
  unfold datetime.days_in_month.
  destruct (Z.eqb_spec m 2); [|trivial].
  destruct (datetime.is_leap y), (datetime.is_leap y'); lia.
Qed.

Lemma replace_year_ok (y : Z) (dt : datetime.t) :
  valid_date y (datetime.month dt) (datetime.day dt) ->
  datetime.replace_year y dt
  = Ok (datetime.mk y (datetime.month dt) (datetime.day dt)
          (datetime.hour dt) (datetime.minute dt) (datetime.second dt)
          (datetime.microsecond dt)).
Proof.
  intros (Hy & Hm & Hd).
  unfold datetime.replace_year, datetime.check_date_fields, datetime.MINYEAR,
    datetime.MAXYEAR.
  replace (1 <=? y) with true by (symmetry; apply Z.leb_le; lia).
  replace (y <=? 9999) with true by (symmetry; apply Z.leb_le; lia).
  replace (1 <=? datetime.month dt) with true
    by (symmetry; apply Z.leb_le; lia).
  replace (datetime.month dt <=? 12) with true
    by (symmetry; apply Z.leb_le; lia).
  replace (1 <=? datetime.day dt) with true
    by (symmetry; apply Z.leb_le; lia).
  replace (datetime.day dt <=? datetime.days_in_month y (datetime.month dt))
    with true by (symmetry; apply Z.leb_le; lia).
  reflexivity.
Qed.

(** The order of two date-times of one year, the first at midnight. *)
Lemma ltb_same_year (y m d tm td h mi s us : Z) :
  valid_time h mi s us ->
  datetime.ltb (datetime.mk y m d 0 0 0 0) (datetime.mk y tm td h mi s us)
  = true
  <-> m < tm \/ (m = tm /\ (d < td \/ (d = td /\ 0 < h + mi + s + us))).
Proof.
  intros (Hh & Hmi & Hs & Hus). unfold datetime.ltb, datetime.fields.
  cbn [datetime.year datetime.month datetime.day datetime.hour
       datetime.minute datetime.second datetime.microsecond datetime.cmp].
  rewrite Z.compare_refl.
  destruct (Z.compare_spec m tm); [|split; [lia | reflexivity]
                                   |split; [discriminate | lia]].
  destruct (Z.compare_spec d td); [|split; [lia | reflexivity]
                                   |split; [discriminate | lia]].
  destruct (Z.compare_spec 0 h); [|split; [lia | reflexivity]|lia].
  destruct (Z.compare_spec 0 mi); [|split; [lia | reflexivity]|lia].
  destruct (Z.compare_spec 0 s); [|split; [lia | reflexivity]|lia].
  destruct (Z.compare_spec 0 us); [|split; [lia | reflexivity]|lia].
  split; [discriminate | lia].
Qed.

Lemma div_days_range (t : Z) :
  0 <= t <= 365 * timedelta.us_per_day + (timedelta.us_per_day - 1) ->
  0 <= t / timedelta.us_per_day <= 365.
Proof.
  unfold timedelta.us_per_day. intros H. split.
  - apply Z.div_pos; lia.
  - apply Z.lt_succ_r. apply Z.div_lt_upper_bound; lia.
Qed.

Lemma days_to_birthday_in_range (today : datetime.t) (r : Record.t)
  (b : Birthday.t) :
  Record.birthday r = Some b ->
  valid_datetime today ->
  datetime.year today < 9999 ->
  valid_date (datetime.year (Birthday.value b))
             (datetime.month (Birthday.value b))
             (datetime.day (Birthday.value b)) ->
  at_midnight (Birthday.value b) ->
  ~ (datetime.month (Birthday.value b) = 2
     /\ datetime.day (Birthday.value b) = 29) ->
  exists n, Record.days_to_birthday today r = Ok (Some n) /\ 0 <= n <= 365.
Proof.
  destruct b as [[byear bm bd bh bmi bs bus]].
  destruct today as [y tm td h mi s us].
  unfold valid_datetime, at_midnight.
  cbn [Birthday.value datetime.year datetime.month datetime.day datetime.hour
       datetime.minute datetime.second datetime.microsecond].
  intros Hb ((Hy & Htm & Htd) & Ht) Hy9 (Hby & Hbm & Hbd) (-> & -> & -> & ->)
    Hfeb.
  pose proof (day_in_every_year byear y bm bd Hbd Hfeb) as Hd0.
  pose proof (day_in_every_year byear (y + 1) bm bd Hbd Hfeb) as Hd1.
  pose proof (days_before_month_range y tm Htm) as Rtm.
  pose proof (days_before_month_range y bm Hbm) as Rbm.
  pose proof (days_before_month_range (y + 1) bm Hbm) as Rbm1.
  pose proof (days_before_month_next_year y bm Hbm) as Nbm.
  pose proof (days_before_year_next y) as Ny.
  pose proof (leap_day_range y) as Rl.
  pose proof (leap_day_range (y + 1)) as Rl1.
  pose proof (ltb_same_year y bm bd tm td h mi s us Ht) as Hlt.
  pose proof Ht as (Hh & Hmi & Hs & Hus).
  unfold Record.days_to_birthday. rewrite Hb.
  rewrite replace_year_ok
    by (cbn [Birthday.value datetime.year datetime.month datetime.day];
        unfold valid_date; lia).
  cbn [bind Birthday.value datetime.year datetime.month datetime.day
       datetime.hour datetime.minute datetime.second datetime.microsecond].
  destruct (datetime.ltb (datetime.mk y bm bd 0 0 0 0)
                         (datetime.mk y tm td h mi s us)) eqn:E.
  - rewrite replace_year_ok
      by (cbn [datetime.month datetime.day]; unfold valid_date; lia).
    cbn [bind datetime.month datetime.day datetime.hour datetime.minute
         datetime.second datetime.microsecond].
    eexists. split; [reflexivity|].
    unfold datetime_sub, datetime.toordinal, datetime.ymd2ord, timedelta.init.
    cbn [timedelta.days datetime.year datetime.month datetime.day
         datetime.hour datetime.minute datetime.second datetime.microsecond].
    apply div_days_range. unfold timedelta.us_per_day.
    pose proof (proj1 Hlt eq_refl) as F.
    destruct (2 <? bm);
      destruct F as [F|[F [F'|[F' F'']]]];
      try (pose proof (days_before_month_mono y bm tm ltac:(lia) F
                         ltac:(lia))); try subst tm; lia.
  - eexists. split; [reflexivity|].
    unfold datetime_sub, datetime.toordinal, datetime.ymd2ord, timedelta.init.
    cbn [timedelta.days datetime.year datetime.month datetime.day
         datetime.hour datetime.minute datetime.second datetime.microsecond].
    apply div_days_range. unfold timedelta.us_per_day.
    assert (Hge : ~ (bm < tm
                     \/ (bm = tm
                         /\ (bd < td \/ (bd = td /\ 0 < h + mi + s + us)))))
      by (intros F; apply Hlt in F; discriminate).
    destruct (Z.lt_trichotomy bm tm) as [F|[F|F]]; [lia| |].
    + subst tm. lia.
    + pose proof (days_before_month_mono y tm bm ltac:(lia) F ltac:(lia)).
      lia.
Qed.

(** X7.  For a birthday that is not 29 February and a clock before the year
    9999, [days_to_birthday] raises nothing and returns a number from 0 to
    365. *)
Theorem X7_days_to_birthday_range (today : datetime.t) (r : Record.t)
  (b : Birthday.t) :
  Record.birthday r = Some b ->
  valid_datetime today ->
  datetime.year today < 9999 ->
  valid_date (datetime.year (Birthday.value b))
             (datetime.month (Birthday.value b))
             (datetime.day (Birthday.value b)) ->
  at_midnight (Birthday.value b) ->
  ~ (datetime.month (Birthday.value b) = 2
     /\ datetime.day (Birthday.value b) = 29) ->
  exists n, Record.days_to_birthday today r = Ok (Some n) /\ 0 <= n <= 365.
Proof. apply days_to_birthday_in_range. Qed.

Lemma div_days_between (lo hi t : Z) :
  lo * timedelta.us_per_day <= t
  <= hi * timedelta.us_per_day + (timedelta.us_per_day - 1) ->
  lo <= t / timedelta.us_per_day <= hi.
Proof.
  unfold timedelta.us_per_day. intros H. split.
  - apply Z.div_le_lower_bound; lia.
  - apply Z.lt_succ_r. apply Z.div_lt_upper_bound; lia.
Qed.

(** X8.  On the day of the birthday itself, [days_to_birthday] returns 0
    only while the clock reads midnight exactly; at every later time of the
    day the birthday of this year is over, and it returns 364 or 365. *)
Theorem X8_on_the_birthday (today : datetime.t) (r : Record.t)
  (b : Birthday.t) :
  Record.birthday r = Some b ->
  valid_datetime today ->
  datetime.year today < 9999 ->
  at_midnight (Birthday.value b) ->
  datetime.month (Birthday.value b) = datetime.month today ->
  datetime.day (Birthday.value b) = datetime.day today ->
  ~ (datetime.month today = 2 /\ datetime.day today = 29) ->
  exists n,
    Record.days_to_birthday today r = Ok (Some n)
    /\ if is_midnight (datetime.hour today) (datetime.minute today)
                      (datetime.second today) (datetime.microsecond today)
       then n = 0 else 364 <= n <= 365.
Proof.
  destruct b as [[byear bm bd bh bmi bs bus]].
  destruct today as [y tm td h mi s us].
  unfold valid_datetime, at_midnight.
  cbn [Birthday.value datetime.year datetime.month datetime.day datetime.hour
       datetime.minute datetime.second datetime.microsecond].
  intros Hb ((Hy & Htm & Htd) & Ht) Hy9 (-> & -> & -> & ->) -> -> Hfeb.
  pose proof (day_in_every_year y (y + 1) tm td Htd Hfeb) as Hd1.
  pose proof (days_before_month_next_year y tm Htm) as Nbm.
  pose proof (days_before_year_next y) as Ny.
  pose proof (leap_day_range y) as Rl.
  pose proof (leap_day_range (y + 1)) as Rl1.
  pose proof (ltb_same_year y tm td tm td h mi s us Ht) as Hlt.
  pose proof Ht as (Hh & Hmi & Hs & Hus).
  unfold Record.days_to_birthday. rewrite Hb.
  rewrite replace_year_ok
    by (cbn [Birthday.value datetime.year datetime.month datetime.day];
        unfold valid_date; lia).
  cbn [bind Birthday.value datetime.year datetime.month datetime.day
       datetime.hour datetime.minute datetime.second datetime.microsecond].
  assert (Hmid : is_midnight h mi s us = true <-> h + mi + s + us = 0).
  { unfold is_midnight. rewrite !andb_true_iff, !Z.eqb_eq. lia. }
  destruct (datetime.ltb (datetime.mk y tm td 0 0 0 0)
                         (datetime.mk y tm td h mi s us)) eqn:E.
  - rewrite replace_year_ok
      by (cbn [datetime.month datetime.day]; unfold valid_date; lia).
    cbn [bind datetime.month datetime.day datetime.hour datetime.minute
         datetime.second datetime.microsecond].
    eexists. split; [reflexivity|].
    pose proof (proj1 Hlt eq_refl) as F.
    destruct (is_midnight h mi s us) eqn:M;
      [pose proof (proj1 Hmid eq_refl); lia|].
    unfold datetime_sub, datetime.toordinal, datetime.ymd2ord, timedelta.init.
    cbn [timedelta.days datetime.year datetime.month datetime.day
         datetime.hour datetime.minute datetime.second datetime.microsecond].
    apply div_days_between. unfold timedelta.us_per_day.
    destruct (2 <? tm); lia.
  - eexists. split; [reflexivity|].
    assert (Hz : h + mi + s + us = 0).
    { destruct (Z.eq_dec (h + mi + s + us) 0) as [|N]; [assumption|].
      assert (F : datetime.ltb (datetime.mk y tm td 0 0 0 0)
                    (datetime.mk y tm td h mi s us) = true)
        by (rewrite E; apply Hlt; lia).
      congruence. }
    rewrite (proj2 Hmid Hz).
    assert (h = 0 /\ mi = 0 /\ s = 0 /\ us = 0) as (-> & -> & -> & ->) by lia.
    unfold datetime_sub, datetime.toordinal, datetime.ymd2ord, timedelta.init.
    cbn [timedelta.days datetime.year datetime.month datetime.day
         datetime.hour datetime.minute datetime.second datetime.microsecond].
    match goal with |- ?t / _ = 0 => replace t with 0 by lia end.
    reflexivity.
Qed.

Ltac side_conditions :=
  try reflexivity;
  unfold valid_datetime, valid_date, valid_time, at_midnight; cbn;
  repeat split; try reflexivity; try lia; try discriminate.

Lemma X8_on_the_birthday_witness :
  exists n,
    Record.days_to_birthday (datetime.mk 2024 6 15 8 0 0 0)
      (Record.mk (Name.mk "Ann") []
         (Some (Birthday.mk (datetime.mk 1990 6 15 0 0 0 0))))
    = Ok (Some n)
    /\ 364 <= n <= 365.
Proof.
  apply (X8_on_the_birthday (datetime.mk 2024 6 15 8 0 0 0)
           (Record.mk (Name.mk "Ann") []
              (Some (Birthday.mk (datetime.mk 1990 6 15 0 0 0 0))))
           (Birthday.mk (datetime.mk 1990 6 15 0 0 0 0)));
    side_conditions.
Defined.

Lemma X7_days_to_birthday_range_witness :
  exists n,
    Record.days_to_birthday (datetime.mk 2024 12 31 23 59 59 999999)
      (Record.mk (Name.mk "Ann") []
         (Some (Birthday.mk (datetime.mk 1990 12 30 0 0 0 0))))
    = Ok (Some n)
    /\ 0 <= n <= 365.
Proof.
  apply (X7_days_to_birthday_range (datetime.mk 2024 12 31 23 59 59 999999)
           (Record.mk (Name.mk "Ann") []
              (Some (Birthday.mk (datetime.mk 1990 12 30 0 0 0 0))))
           (Birthday.mk (datetime.mk 1990 12 30 0 0 0 0)));
    side_conditions.
Defined.

(** X9.  In the year 9999, once the birthday of the year is over,
    [days_to_birthday] raises the [ValueError] of [replace]: the year 10000
    is out of range. *)
Theorem X9_year_9999 (today : datetime.t) (r : Record.t) (b : Birthday.t) :
  Record.birthday r = Some b ->
  datetime.year today = 9999 ->
  valid_date 9999 (datetime.month (Birthday.value b))
             (datetime.day (Birthday.value b)) ->
  datetime.ltb (datetime.mk 9999 (datetime.month (Birthday.value b))
                  (datetime.day (Birthday.value b))
                  (datetime.hour (Birthday.value b))
                  (datetime.minute (Birthday.value b))
                  (datetime.second (Birthday.value b))
                  (datetime.microsecond (Birthday.value b))) today = true ->
  Record.days_to_birthday today r
  = Raise (ValueError "year 10000 is out of range").
Proof.
  intros Hb Hy Hv Hlt. unfold Record.days_to_birthday.
  rewrite Hb, Hy, replace_year_ok by assumption.
  cbn [bind]. rewrite Hlt. reflexivity.
Qed.

Lemma X9_year_9999_witness :
  Record.days_to_birthday (datetime.mk 9999 6 16 0 0 0 0)
    (Record.mk (Name.mk "Ann") []
       (Some (Birthday.mk (datetime.mk 1990 6 15 0 0 0 0))))
  = Raise (ValueError "year 10000 is out of range").
Proof.
  apply (X9_year_9999 (datetime.mk 9999 6 16 0 0 0 0) _
           (Birthday.mk (datetime.mk 1990 6 15 0 0 0 0)));
    side_conditions.
Defined.

(** X10.  For a birthday on 29 February and a clock in a leap year that is
    past the midnight with which 29 February begins, [days_to_birthday]
    raises the [ValueError] of [replace] as well: the birthday of the year is
    over, and the year after a leap year has no 29 February. *)
Theorem X10_feb29_after_leap_day (today : datetime.t) (r : Record.t)
  (b : Birthday.t) :
  Record.birthday r = Some b ->
  datetime.month (Birthday.value b) = 2 ->
  datetime.day (Birthday.value b) = 29 ->
  at_midnight (Birthday.value b) ->
  1 <= datetime.year today < 9999 ->
  datetime.is_leap (datetime.year today) = true ->
  datetime.ltb (datetime.mk (datetime.year today) 2 29 0 0 0 0) today = true ->
  Record.days_to_birthday today r
  = Raise (ValueError "day is out of range for month").
Proof.
  intros Hb Hm Hd (Hh & Hmi & Hs & Hus) Hy Hleap Hlt.
  apply (feb29_raises_after_leap_day today r b
           (datetime.mk (datetime.year today) 2 29 0 0 0 0));
    try assumption; [lia|].
  rewrite replace_year_ok.
  - now rewrite Hm, Hd, Hh, Hmi, Hs, Hus.
  - rewrite Hm, Hd. unfold valid_date, datetime.days_in_month.
    rewrite Hleap. cbn. lia.
Qed.

Lemma X10_feb29_after_leap_day_witness :
  Record.days_to_birthday (datetime.mk 2024 2 29 0 0 0 1)
    (Record.mk (Name.mk "Bob") []
       (Some (Birthday.mk (datetime.mk 2000 2 29 0 0 0 0))))
  = Raise (ValueError "day is out of range for month").
Proof.
  apply (X10_feb29_after_leap_day (datetime.mk 2024 2 29 0 0 0 1) _
           (Birthday.mk (datetime.mk 2000 2 29 0 0 0 0)));
    side_conditions.
Defined.

(** ** Records in the book *)

Lemma get_setitem_same {V : Type} (k : string) (v : V) (d : dict.t V) :
  dict.get k (dict.setitem k v d) = Some v.
Proof.
  induction d as [|[k' v'] d IH]; cbn.
  - now rewrite String.eqb_refl.
  - destruct (String.eqb_spec k' k) as [->|Hn]; cbn.
    + now rewrite String.eqb_refl.
    + destruct (String.eqb_spec k' k); [congruence | exact IH].
Qed.

Lemma get_setitem_other {V : Type} (k k' : string) (v : V) (d : dict.t V) :
  k' <> k -> dict.get k' (dict.setitem k v d) = dict.get k' d.
Proof.
  intros Hk. induction d as [|[k0 v0] d IH]; cbn.
  - destruct (String.eqb_spec k k'); [congruence | reflexivity].
  - destruct (String.eqb_spec k0 k) as [->|Hn]; cbn.
    + destruct (String.eqb_spec k k'); [congruence | reflexivity].
    + now rewrite IH.
Qed.

Lemma delitem_setitem_absent {V : Type} (k : string) (v : V) (d : dict.t V) :
  dict.get k d = None -> dict.delitem k (dict.setitem k v d) = d.
Proof.
  induction d as [|[k' v'] d IH]; cbn.
  - now rewrite String.eqb_refl.
  - destruct (String.eqb_spec k' k) as [->|Hn]; [discriminate|].
    intros H. cbn. destruct (String.eqb_spec k' k); [congruence|].
    now rewrite IH.
Qed.

(** X11.  After [add_record] the record is found under its own name, and
    every other name is found, or not found, as before. *)
Theorem X11_add_record_find (record : Record.t) (b : AddressBook.t) :
  AddressBook.find (Name.value (Record.name record))
                   (AddressBook.add_record record b) = Some record
  /\ forall n, n <> Name.value (Record.name record) ->
               AddressBook.find n (AddressBook.add_record record b)
               = AddressBook.find n b.
Proof.
  unfold AddressBook.find, AddressBook.add_record. cbn [AddressBook.data].
  split; [apply get_setitem_same|]. intros n Hn. now apply get_setitem_other.
Qed.

(** X12.  [add_record] under a name the book has puts the new record in the
    place of the old one, whole, and the names of the book and their order
    stay; under a new name it puts the record after all the others. *)
Theorem X12_add_record_order (record : Record.t) (b : AddressBook.t) :
  dict.keys (AddressBook.data (AddressBook.add_record record b))
  = match AddressBook.find (Name.value (Record.name record)) b with
    | Some _ => dict.keys (AddressBook.data b)
    | None =>
        dict.keys (AddressBook.data b) ++ [Name.value (Record.name record)]
    end.
Proof.
  unfold AddressBook.find, AddressBook.add_record. cbn [AddressBook.data].
  rewrite keys_setitem. unfold dict.contains.
  now destruct (dict.get _ _).
Qed.

(** X13.  Adding a record under a name the book does not have and deleting
    that name again gives the book back. *)
Theorem X13_add_record_then_delete (record : Record.t) (b : AddressBook.t) :
  AddressBook.find (Name.value (Record.name record)) b = None ->
  AddressBook.delete (Name.value (Record.name record))
                     (AddressBook.add_record record b)
  = (Ok tt, b).
Proof.
  unfold AddressBook.find, AddressBook.delete, AddressBook.add_record,
    dict.contains.
  cbn [AddressBook.data]. intros H.
  rewrite get_setitem_same, delitem_setitem_absent by assumption.
  now destruct b.
Qed.

Lemma X13_add_record_then_delete_witness :
  let b := AddressBook.mk [("Ann", Record.init "Ann")] in
  AddressBook.delete "Bob" (AddressBook.add_record (Record.init "Bob") b)
  = (Ok tt, b).
Proof.
  intros b. apply (X13_add_record_then_delete (Record.init "Bob") b).
  reflexivity.
Defined.

(** ** Upcoming birthdays, in general *)

Lemma regular_no_raise (today : datetime.t) (r : Record.t) :
  valid_datetime today -> datetime.year today < 9999 ->
  regular_birthday r ->
  exists v, Record.days_to_birthday today r = Ok v.
Proof.
  intros Ht Hy Hr. unfold regular_birthday in Hr.
  destruct (Record.birthday r) as [b|] eqn:E.
  - destruct Hr as (Hv & Hm & Hf).
    destruct (days_to_birthday_in_range today r b E Ht Hy Hv Hm Hf)
      as (n & Hn & _).
    eauto.
  - unfold Record.days_to_birthday. rewrite E. eauto.
Qed.

(** X14.  For a book in which no birthday is 29 February, and a clock that
    stands at a time before the year 9999, [get_upcoming_birthdays] returns,
    in the order of the book, the name and the text of the birthday of
    exactly the records whose [days_to_birthday] is at most 7. *)
Theorem X14_upcoming_birthdays (pads : bool) (today : datetime.t) (n : nat)
  (b : AddressBook.t) :
  valid_datetime today -> datetime.year today < 9999 ->
  Forall regular_birthday (dict.values (AddressBook.data b)) ->
  fst (AddressBook.get_upcoming_birthdays pads (fun _ => today) n b)
  = Ok (flat_map (fun r => if is_upcoming today 7 r
                           then entry_of pads r else [])
                 (dict.values (AddressBook.data b))).
Proof.
  intros Ht Hy Hreg. apply upcoming_frozen_clock.
  eapply Forall_impl; [|exact Hreg].
  intros r Hr. now apply regular_no_raise.
Qed.

Lemma X14_upcoming_birthdays_witness :
  let today := datetime.mk 2024 6 10 12 0 0 0 in
  let bd y m d := Some (Birthday.mk (datetime.mk y m d 0 0 0 0)) in
  let b := AddressBook.mk
             [("Ann", Record.mk (Name.mk "Ann") [] (bd 1990 6 18));
              ("Bob", Record.mk (Name.mk "Bob") [] (bd 1985 6 19));
              ("Eve", Record.mk (Name.mk "Eve") [] (bd 2001 6 10));
              ("Joe", Record.mk (Name.mk "Joe") [] None)] in
  fst (AddressBook.get_upcoming_birthdays true (fun _ => today) O b)
  = Ok [mk_entry "Ann" "18.06.1990"].
Proof.
  intros today bd b.
  apply (X14_upcoming_birthdays true today O b).
  - side_conditions.
  - side_conditions.
  - repeat constructor; unfold regular_birthday; side_conditions.
Defined.

Lemma upcoming_loop_no_birthday (pads : bool) (clock : nat -> datetime.t)
  (n : nat) (records : list Record.t) (acc : list entry) :
  Forall (fun r => Record.birthday r = None) records ->
  AddressBook.upcoming_loop pads clock n records acc = (Ok acc, n).
Proof.
  induction 1 as [|r records Hr _ IH]; cbn; [reflexivity|].
  now rewrite Hr.
Qed.

(** X15.  While no record of the book has a birthday, the command
    [birthdays] prints that there are no upcoming birthdays, whatever the
    clock reads, and leaves the book as it is. *)
Theorem X15_birthdays_without_birthday (pads : bool)
  (clock : nat -> datetime.t) (args : list string) (st : state) :
  Forall (fun r => Record.birthday r = None)
         (dict.values (AddressBook.data (book st))) ->
  birthdays pads clock args st
  = (["No upcoming birthdays in the next 7 days."%string],
     mk_state (book st) (S (ticks st))).
Proof.
  intros H. unfold birthdays, AddressBook.get_upcoming_birthdays.
  now rewrite upcoming_loop_no_birthday.
Qed.

Lemma X15_birthdays_without_birthday_witness :
  birthdays true (fun _ => datetime.mk 2023 3 1 0 0 0 0) []
    (mk_state (AddressBook.mk [("Ann", Record.init "Ann")]) O)
  = (["No upcoming birthdays in the next 7 days."%string],
     mk_state (AddressBook.mk [("Ann", Record.init "Ann")]) 1%nat).
Proof.
  apply (X15_birthdays_without_birthday true
           (fun _ => datetime.mk 2023 3 1 0 0 0 0) []
           (mk_state (AddressBook.mk [("Ann", Record.init "Ann")]) O)).
  repeat constructor.
Defined.

(** ** What the loop of [main] does to the book *)

Lemma add_birthday_book_step (args : list string) (st : state) :
  book_step (book st) (book (snd (add_birthday args st))).
Proof.
  unfold add_birthday, input_error.
  destruct args as [|n [|birthday args]]; try apply bs_same.
  destruct (dict.get n (AddressBook.data (book st))) as [r|] eqn:E;
    [|apply bs_same].
  destruct (Record.add_birthday birthday r) as [[u|e] r'] eqn:Er;
    [|apply bs_same].
  cbn [snd book].
  replace r' with (snd (Record.add_birthday birthday r))
    by (now rewrite Er).
  now apply bs_add_birthday.
Qed.

Lemma step_book_step (pads : bool) (clock : nat -> datetime.t)
  (user_input : string) (st : state) :
  book_step (book st) (book (snd (step pads clock user_input st))).
Proof.
  unfold step.
  destruct (parse_input user_input) as [[command args]|e]; [|apply bs_same].
  destruct ((command =? "close")%string || (command =? "exit")%string);
    [apply bs_same|].
  destruct (command =? "hello")%string; [apply bs_same|].
  destruct (command =? "add")%string.
  { destruct args as [|n [|phone args]]; try apply bs_same.
    destruct (dict.get n (AddressBook.data (book st))) as [r|] eqn:E.
    - destruct (Record.add_phone phone r) as [[u|e] r'] eqn:Er;
        [|apply bs_same].
      cbn [snd book].
      replace r' with (snd (Record.add_phone phone r)) by (now rewrite Er).
      now apply bs_add_phone.
    - destruct (Record.add_phone phone (Record.init n)) as [[u|e] r'] eqn:Er;
        [|apply bs_same].
      cbn [snd book].
      replace r' with (snd (Record.add_phone phone (Record.init n)))
        by (now rewrite Er).
      now apply bs_new. }
  destruct (command =? "change")%string.
  { destruct args as [|n [|old_phone [|new_phone args]]]; try apply bs_same.
    destruct (dict.get n (AddressBook.data (book st))) as [r|] eqn:E;
      [|apply bs_same].
    destruct (Record.edit_phone old_phone new_phone r) as [[u|e] r'] eqn:Er.
    - cbn [snd book].
      replace r' with (snd (Record.edit_phone old_phone new_phone r))
        by (now rewrite Er).
      now apply bs_edit_phone.
    - destruct e; apply bs_same. }
  destruct (command =? "phone")%string.
  { destruct args as [|n args]; [apply bs_same|].
    destruct (dict.get n _); apply bs_same. }
  destruct (command =? "all")%string.
  { destruct (AddressBook.data (book st)); apply bs_same. }
  destruct (command =? "add-birthday")%string.
  { destruct args as [|n [|birthday args]]; try apply bs_same.
    pose proof (add_birthday_book_step (n :: birthday :: args) st) as H.
    now destruct (add_birthday (n :: birthday :: args) st). }
  destruct (command =? "show-birthday")%string.
  { destruct args as [|n args]; [apply bs_same|].
    pose proof (book_show_birthday pads (n :: args) st) as H.
    destruct (show_birthday pads (n :: args) st). cbn [snd] in *.
    rewrite H. apply bs_same. }
  destruct (command =? "birthdays")%string; [|apply bs_same].
  pose proof (book_birthdays pads clock args st) as H.
  destruct (birthdays pads clock args st). cbn [snd] in *.
  rewrite H. apply bs_same.
Qed.

(** An invariant of [book_step] holds after every run of the loop. *)
Lemma loop_invariant (P : AddressBook.t -> Prop) :
  (forall b b', book_step b b' -> P b -> P b') ->
  forall pads clock lines st,
    P (book st) -> P (book (snd (loop pads clock lines st))).
Proof.
  intros HP pads clock lines.
  induction lines as [|line lines IH]; intros st Hst; cbn [loop].
  - assumption.
  - pose proof (HP _ _ (step_book_step pads clock line st) Hst) as Hs.
    destruct (step pads clock line st) as [[out [[]|e]] st']; cbn [snd] in *.
    + specialize (IH st' Hs).
      now destruct (loop pads clock lines st') as [[? ?] ?].
    + assumption.
    + assumption.
Qed.

Lemma main_invariant (P : AddressBook.t -> Prop) :
  (forall b b', book_step b b' -> P b -> P b') ->
  P AddressBook.init ->
  forall pads clock lines, P (book (snd (main pads clock lines))).
Proof.
  intros HP H0 pads clock lines. unfold main.
  pose proof (loop_invariant P HP pads clock lines
                (mk_state AddressBook.init O) H0) as H.
  now destruct (loop pads clock lines _) as [[? ?] ?].
Qed.

(** X16.  Whatever lines [main] reads, every record of its book is stored
    under its own name. *)
Theorem X16_main_keeps_names (pads : bool) (clock : nat -> datetime.t)
  (lines : list string) :
  key_name_consistent (book (snd (main pads clock lines))).
Proof. apply consistent_main. Qed.

Lemma valid_edit_loop (old_phone new_phone : string) (l : list Phone.t) :
  Forall (fun p => ten_digits (Phone.value p) = true) l ->
  Forall (fun p => ten_digits (Phone.value p) = true)
         (snd (Record.edit_loop old_phone new_phone l)).
Proof.
  induction 1 as [|p l Hp Hl IH]; cbn; [constructor|].
  destruct (Phone.value p =? old_phone)%string.
  - unfold Phone.set_phone. rewrite pattern_ten_digits.
    destruct (ten_digits new_phone) eqn:E; cbn; constructor; auto.
  - destruct (Record.edit_loop old_phone new_phone l). cbn in *.
    constructor; auto.
Qed.

Lemma phones_valid_store (b : AddressBook.t) (n : string) (r : Record.t) :
  phones_valid b ->
  Forall (fun p => ten_digits (Phone.value p) = true) (Record.phones r) ->
  phones_valid (store n r b).
Proof.
  unfold phones_valid, store. destruct b as [d]. cbn [AddressBook.data].
  intros Hd Hr. induction Hd as [|[k v] d Hkv Hd IH]; cbn.
  - repeat constructor. exact Hr.
  - destruct (k =? n)%string; constructor; auto.
Qed.

Lemma phones_valid_get (b : AddressBook.t) (n : string) (r : Record.t) :
  phones_valid b -> dict.get n (AddressBook.data b) = Some r ->
  Forall (fun p => ten_digits (Phone.value p) = true) (Record.phones r).
Proof.
  unfold phones_valid. destruct b as [d]. cbn [AddressBook.data].
  induction 1 as [|[k v] d Hkv Hd IH]; cbn; [discriminate|].
  destruct (k =? n)%string; [now intros [= <-] | exact IH].
Qed.

Lemma valid_add_phone (phone : string) (r : Record.t) :
  Forall (fun p => ten_digits (Phone.value p) = true) (Record.phones r) ->
  Forall (fun p => ten_digits (Phone.value p) = true)
         (Record.phones (snd (Record.add_phone phone r))).
Proof.
  intros H. rewrite add_phone_cases.
  destruct (ten_digits phone) eqn:E; cbn; [|assumption].
  apply Forall_app. split; [assumption | now repeat constructor].
Qed.

Lemma phones_valid_book_step (b b' : AddressBook.t) :
  book_step b b' -> phones_valid b -> phones_valid b'.
Proof.
  intros Hs Hb. destruct Hs as [|n r phone E|n r o p E|n r s E|n phone E].
  - assumption.
  - apply phones_valid_store; [assumption|].
    apply valid_add_phone. now apply (phones_valid_get b n).
  - apply phones_valid_store; [assumption|].
    unfold Record.edit_phone.
    pose proof (valid_edit_loop o p (Record.phones r)
                  (phones_valid_get b n r Hb E)) as H.
    now destruct (Record.edit_loop o p (Record.phones r)).
  - apply phones_valid_store; [assumption|].
    unfold Record.add_birthday. destruct (Birthday.init s); cbn;
      now apply (phones_valid_get b n).
  - unfold AddressBook.add_record. apply phones_valid_store; [assumption|].
    apply valid_add_phone. constructor.
Qed.

(** X17.  Whatever lines [main] reads, every phone of every record of its
    book holds ten decimal digits. *)
Theorem X17_main_keeps_phones_valid (pads : bool) (clock : nat -> datetime.t)
  (lines : list string) :
  phones_valid (book (snd (main pads clock lines))).
Proof.
  apply main_invariant; [exact phones_valid_book_step | constructor].
Qed.

Lemma keys_book_step (b b' : AddressBook.t) :
  book_step b b' ->
  exists l, dict.keys (AddressBook.data b')
            = dict.keys (AddressBook.data b) ++ l.
Proof.
  intros Hs. destruct Hs as [|n r phone E|n r o p E|n r s E|n phone E];
    unfold store, AddressBook.add_record; cbn [AddressBook.data];
    rewrite ?keys_setitem; unfold dict.contains.
  - exists []. now rewrite app_nil_r.
  - rewrite E. exists []. now rewrite app_nil_r.
  - rewrite E. exists []. now rewrite app_nil_r.
  - rewrite E. exists []. now rewrite app_nil_r.
  - rewrite name_add_phone. cbn [Record.init Record.name Name.value].
    rewrite E. eauto.
Qed.

(** X18.  The loop of [main] never removes a contact and never changes the
    order of the contacts: after any lines, the names of the book are the
    names it had before, in their order, followed by the new ones. *)
Theorem X18_loop_keeps_contacts (pads : bool) (clock : nat -> datetime.t)
  (lines : list string) (st : state) :
  exists l,
    dict.keys (AddressBook.data (book (snd (loop pads clock lines st))))
    = dict.keys (AddressBook.data (book st)) ++ l.
Proof.
  apply (loop_invariant
           (fun b => exists l, dict.keys (AddressBook.data b)
                               = dict.keys (AddressBook.data (book st)) ++ l)).
  - intros b b' Hs [l Hl]. destruct (keys_book_step b b' Hs) as [l' Hl'].
    exists (l ++ l'). now rewrite Hl', Hl, app_assoc.
  - exists []. now rewrite app_nil_r.
Qed.

(** ** Commands that change nothing, and the ways out of the loop *)

(** X19.  Only the commands [add], [change] and [add-birthday] change the
    book: for every other first word of the line the book is the same after
    the turn of the loop. *)
Theorem X19_other_commands_keep_book (pads : bool)
  (clock : nat -> datetime.t) (user_input command : string)
  (args : list string) (st : state) :
  parse_input user_input = Ok (command, args) ->
  command <> "add"%string -> command <> "change"%string ->
  command <> "add-birthday"%string ->
  book (snd (step pads clock user_input st)) = book st.
Proof.
  intros Hp Ha Hc Hb. unfold step. rewrite Hp.
  destruct ((command =? "close")%string || (command =? "exit")%string);
    [reflexivity|].
  destruct (command =? "hello")%string; [reflexivity|].
  destruct (String.eqb_spec command "add") as [|_]; [contradiction|].
  destruct (String.eqb_spec command "change") as [|_]; [contradiction|].
  destruct (command =? "phone")%string.
  { destruct args as [|n args]; [reflexivity|].
    now destruct (dict.get n _). }
  destruct (command =? "all")%string.
  { now destruct (AddressBook.data (book st)). }
  destruct (String.eqb_spec command "add-birthday") as [|_]; [contradiction|].
  destruct (command =? "show-birthday")%string.
  { destruct args as [|n args]; [reflexivity|].
    pose proof (book_show_birthday pads (n :: args) st) as H.
    now destruct (show_birthday pads (n :: args) st). }
  destruct (command =? "birthdays")%string; [|reflexivity].
  pose proof (book_birthdays pads clock args st) as H.
  now destruct (birthdays pads clock args st).
Qed.

Lemma X19_other_commands_keep_book_witness :
  let st := mk_state (AddressBook.mk [("Ann", Record.init "Ann")]) O in
  book (snd (step true (fun _ => datetime.mk 2024 6 10 0 0 0 0)
               "delete Ann" st))
  = book st.
Proof.
  intros st.
  apply (X19_other_commands_keep_book true _ "delete Ann" "delete" ["Ann"] st);
    [reflexivity | discriminate | discriminate | discriminate].
Defined.

Lemma edit_loop_raises_value_error (old_phone new_phone : string)
  (l : list Phone.t) (e : exn) :
  fst (Record.edit_loop old_phone new_phone l) = Raise e ->
  exists msg, e = ValueError msg.
Proof.
  induction l as [|p l IH]; cbn.
  - intros [= <-]. eauto.
  - destruct (Phone.value p =? old_phone)%string.
    + unfold Phone.set_phone. destruct (re_fullmatch _ _); cbn;
        [discriminate|]. intros [= <-]. unfold Phone.phone_error. eauto.
    + destruct (Record.edit_loop old_phone new_phone l). exact IH.
Qed.

Lemma step_raises (pads : bool) (clock : nat -> datetime.t)
  (user_input : string) (st st' : state) (out : list string) (e : exn) :
  step pads clock user_input st = (out, Raise e, st') ->
  out = [] /\ st' = st
  /\ ((parse_input user_input = Raise index_error /\ e = index_error)
      \/ (exists n phone args,
            parse_input user_input = Ok ("add"%string, n :: phone :: args)
            /\ ten_digits phone = false /\ e = Phone.phone_error)).
Proof.
  unfold step.
  destruct (parse_input user_input) as [[command args]|e0] eqn:Hp.
  2:{ assert (He : e0 = index_error).
      { unfold parse_input in Hp.
        destruct (split (strip user_input)); [|discriminate].
        now injection Hp. }
      subst e0. intros [= <- <- <-]. auto. }
  destruct ((command =? "close")%string || (command =? "exit")%string);
    [discriminate|].
  destruct (command =? "hello")%string; [discriminate|].
  destruct (String.eqb_spec command "add") as [->|_].
  { destruct args as [|n [|phone args]]; try discriminate.
    assert (Hcase : forall r u r',
              Record.add_phone phone r = (Raise u, r') ->
              ten_digits phone = false /\ u = Phone.phone_error).
    { intros r u r'. rewrite add_phone_cases.
      destruct (ten_digits phone); [discriminate|]. now intros [= <- <-]. }
    destruct (dict.get n (AddressBook.data (book st))) as [r|].
    - destruct (Record.add_phone phone r) as [[u|e1] r'] eqn:Er;
        [discriminate|].
      intros [= <- <- <-]. destruct (Hcase _ _ _ Er) as [Hd ->].
      repeat split. right. exists n, phone, args. auto.
    - destruct (Record.add_phone phone (Record.init n)) as [[u|e1] r'] eqn:Er;
        [discriminate|].
      intros [= <- <- <-]. destruct (Hcase _ _ _ Er) as [Hd ->].
      repeat split. right. exists n, phone, args. auto. }
  destruct (command =? "change")%string.
  { destruct args as [|n [|old_phone [|new_phone args]]]; try discriminate.
    destruct (dict.get n (AddressBook.data (book st))) as [r|];
      [|discriminate].
    destruct (Record.edit_phone old_phone new_phone r) as [[u|e1] r'] eqn:Er;
      [discriminate|].
    unfold Record.edit_phone in Er.
    pose proof (edit_loop_raises_value_error old_phone new_phone
                  (Record.phones r) e1) as Hv.
    destruct (Record.edit_loop old_phone new_phone (Record.phones r)).
    injection Er as -> _. destruct (Hv eq_refl) as [msg ->]. discriminate. }
  destruct (command =? "phone")%string.
  { destruct args as [|n args]; [discriminate|].
    destruct (dict.get n _); discriminate. }
  destruct (command =? "all")%string.
  { destruct (AddressBook.data (book st)); discriminate. }
  destruct (command =? "add-birthday")%string.
  { destruct args as [|n [|birthday args]]; try discriminate.
    destruct (add_birthday _ _); discriminate. }
  destruct (command =? "show-birthday")%string.
  { destruct args as [|n args]; [discriminate|].
    destruct (show_birthday _ _ _); discriminate. }
  destruct (command =? "birthdays")%string; [|discriminate].
  destruct (birthdays _ _ _ _); discriminate.
Qed.

(** X20.  An exception leaves a turn of the loop of [main] in two cases
    only: the line has no word, and it is the [IndexError] of [parse_input];
    or the command is [add] with a name and a phone that is not ten digits,
    and it is the [ValueError] of the phone format.  Nothing is printed then
    and the state is as before. *)
Theorem X20_exceptions_of_a_turn (pads : bool) (clock : nat -> datetime.t)
  (user_input : string) (st st' : state) (out : list string) (e : exn) :
  step pads clock user_input st = (out, Raise e, st') ->
  out = [] /\ st' = st
  /\ ((parse_input user_input = Raise index_error /\ e = index_error)
      \/ (exists n phone args,
            parse_input user_input = Ok ("add"%string, n :: phone :: args)
            /\ ten_digits phone = false /\ e = Phone.phone_error)).
Proof. apply step_raises. Qed.

Lemma X20_exceptions_of_a_turn_witness :
  let st := mk_state AddressBook.init O in
  [] = @nil string /\ st = st
  /\ ((parse_input "add Ann 12345" = Raise index_error
       /\ Phone.phone_error = index_error)
      \/ (exists n phone args,
            parse_input "add Ann 12345"
            = Ok ("add"%string, n :: phone :: args)
            /\ ten_digits phone = false
            /\ Phone.phone_error = Phone.phone_error)).
Proof.
  intros st.
  apply (X20_exceptions_of_a_turn true
           (fun _ => datetime.mk 2024 6 10 0 0 0 0) "add Ann 12345" st st
           [] Phone.phone_error).
  reflexivity.
Defined.

(** X21.  The command [add] with a phone that is not ten digits ends the
    loop of [main]: the [ValueError] of the phone format leaves it, nothing
    is printed, no contact is made or changed and no further line is
    read. *)
Theorem X21_add_bad_phone_ends_loop (pads : bool) (clock : nat -> datetime.t)
  (user_input n phone : string) (args rest : list string) (st : state) :
  parse_input user_input = Ok ("add"%string, n :: phone :: args) ->
  ten_digits phone = false ->
  loop pads clock (user_input :: rest) st = ([], Raise Phone.phone_error, st).
Proof.
  intros Hp Hd. cbn [loop]. unfold step. rewrite Hp. cbn.
  destruct (dict.get n (AddressBook.data (book st)));
    now rewrite add_phone_cases, Hd.
Qed.

Lemma X21_add_bad_phone_ends_loop_witness :
  loop true (fun _ => datetime.mk 2024 6 10 0 0 0 0)
       ["add Ann 12345"%string; "hello"%string] (mk_state AddressBook.init O)
  = ([], Raise Phone.phone_error, mk_state AddressBook.init O).
Proof.
  apply (X21_add_bad_phone_ends_loop true _ "add Ann 12345" "Ann" "12345" []
           ["hello"%string] (mk_state AddressBook.init O));
    reflexivity.
Defined.

Lemma edit_loop_present (old_phone new_phone : string) (l : list Phone.t) :
  has_phone old_phone l = true ->
  fst (Record.edit_loop old_phone new_phone l)
  = if ten_digits new_phone then Ok tt else Raise Phone.phone_error.
Proof.
  induction l as [|p l IH]; cbn; [discriminate|].
  destruct (Phone.value p =? old_phone)%string; cbn.
  - intros _. unfold Phone.set_phone. rewrite pattern_ten_digits.
    now destruct (ten_digits new_phone).
  - intros H. specialize (IH H).
    now destruct (Record.edit_loop old_phone new_phone l).
Qed.

(** X22.  For a contact of the book, the command [change] prints that the
    old phone was not found, and changes nothing, not only when the contact
    has no such phone but also when it has it and the new phone is not ten
    digits. *)
Theorem X22_change_reports_not_found (pads : bool) (clock : nat -> datetime.t)
  (user_input n old_phone new_phone : string) (args : list string)
  (st : state) (r : Record.t) :
  parse_input user_input
  = Ok ("change"%string, n :: old_phone :: new_phone :: args) ->
  AddressBook.find n (book st) = Some r ->
  has_phone old_phone (Record.phones r) = false
  \/ ten_digits new_phone = false ->
  step pads clock user_input st
  = ([("Phone number " ++ old_phone ++ " not found for contact " ++ n
       ++ ".")%string], Ok Continue, st).
Proof.
  intros Hp Hf Hcase. unfold step. rewrite Hp. cbn.
  unfold AddressBook.find in Hf. rewrite Hf.
  unfold Record.edit_phone.
  destruct (has_phone old_phone (Record.phones r)) eqn:Hh.
  - destruct Hcase as [|Hd]; [discriminate|].
    pose proof (edit_loop_present old_phone new_phone _ Hh) as He.
    rewrite Hd in He.
    destruct (Record.edit_loop old_phone new_phone (Record.phones r)).
    cbn in He. now rewrite He.
  - now rewrite edit_loop_absent.
Qed.

Lemma X22_change_reports_not_found_witness :
  let st := mk_state
              (AddressBook.mk
                 [("Ann", Record.mk (Name.mk "Ann")
                            [Phone.mk "0123456789"] None)]) O in
  step true (fun _ => datetime.mk 2024 6 10 0 0 0 0)
       "change Ann 0123456789 12345" st
  = (["Phone number 0123456789 not found for contact Ann."%string],
     Ok Continue, st).
Proof.
  intros st.
  apply (X22_change_reports_not_found true _ "change Ann 0123456789 12345"
           "Ann" "0123456789" "12345" [] st
           (Record.mk (Name.mk "Ann") [Phone.mk "0123456789"] None));
    [reflexivity | reflexivity | right; reflexivity].
Defined.

(** ** Words of a line *)

Lemma split_from_run (w s c0 : string) :
  no_space w = true ->
  split_from (Some c0) (w ++ s) = split_from (Some (c0 ++ w)%string) s.
Proof.
  revert c0. induction w as [|c w IH]; intros c0 H; cbn.
  - now rewrite append_empty_r.
  - cbn in H. apply andb_true_iff in H. destruct H as [Hc Hw].
    destruct (is_space c); [discriminate|].
    rewrite IH by assumption. now rewrite append_assoc.
Qed.

Lemma split_from_word (w s : string) :
  is_word w = true -> split_from None (w ++ s) = split_from (Some w) s.
Proof.
  unfold is_word. destruct w as [|c w]; [discriminate|]. cbn.
  intros H. apply andb_true_iff in H. destruct H as [Hc Hw].
  destruct (is_space c); [discriminate|].
  now rewrite (split_from_run w s (String c "")).
Qed.

Lemma split_join (ws : list string) :
  forallb is_word ws = true -> split (join " " ws) = ws.
Proof.
  unfold split. induction ws as [|w ws IH]; [reflexivity|].
  cbn [forallb]. intros H. apply andb_true_iff in H. destruct H as [Hw Hws].
  destruct ws as [|w' ws].
  - cbn [join]. rewrite <- (append_empty_r w) at 1.
    now rewrite split_from_word.
  - change (join " " (w :: w' :: ws))
      with (w ++ String " " (join " " (w' :: ws)))%string.
    rewrite split_from_word by assumption.
    cbn [split_from]. change (is_space " ") with true. cbn iota.
    now rewrite IH.
Qed.

Lemma lstrip_spaces_app (lead s : string) :
  all_chars is_space lead = true -> lstrip (lead ++ s) = lstrip s.
Proof.
  induction lead as [|c lead IH]; cbn; [reflexivity|].
  destruct (is_space c); [exact IH | discriminate].
Qed.

Lemma rstrip_spaces (trail : string) :
  all_chars is_space trail = true -> rstrip trail = "".
Proof.
  induction trail as [|c trail IH]; cbn; [reflexivity|].
  destruct (is_space c); [|discriminate]. intros H. now rewrite IH.
Qed.

Lemma rstrip_app_spaces (s trail : string) :
  all_chars is_space trail = true -> rstrip (s ++ trail) = rstrip s.
Proof.
  intros H. induction s as [|c s IH]; cbn.
  - now apply rstrip_spaces.
  - now rewrite IH.
Qed.

Lemma rstrip_app_word (s w : string) :
  is_word w = true -> rstrip (s ++ w) = (s ++ w)%string.
Proof.
  unfold is_word. intros H. apply andb_true_iff in H. destruct H as [Hne Hw].
  induction s as [|c s IH]; cbn.
  - now apply rstrip_no_space.
  - rewrite IH. destruct (s ++ w)%string eqn:E.
    + destruct s; cbn in E; [subst w|]; discriminate.
    + now rewrite andb_false_r.
Qed.

Lemma join_ends_with_word (w : string) (ws : list string) :
  forallb is_word (w :: ws) = true ->
  exists p w', join " " (w :: ws) = (p ++ w')%string /\ is_word w' = true.
Proof.
  revert w. induction ws as [|w2 ws IH]; intros w H; cbn [forallb] in H;
    apply andb_true_iff in H; destruct H as [Hw Hws].
  - exists "", w. auto.
  - destruct (IH w2 Hws) as (p & w' & Hj & Hw').
    exists (w ++ " " ++ p)%string, w'. split; [|assumption].
    change (join " " (w :: w2 :: ws))
      with (w ++ " " ++ join " " (w2 :: ws))%string.
    now rewrite Hj, !append_assoc.
Qed.

Lemma strip_line (lead trail w : string) (ws : list string) :
  all_chars is_space lead = true -> all_chars is_space trail = true ->
  forallb is_word (w :: ws) = true ->
  strip (lead ++ join " " (w :: ws) ++ trail) = join " " (w :: ws).
Proof.
  intros Hl Ht Hw. unfold strip. rewrite lstrip_spaces_app by assumption.
  assert (Hfirst : lstrip (join " " (w :: ws) ++ trail)
                   = (join " " (w :: ws) ++ trail)%string).
  { cbn [forallb] in Hw. apply andb_true_iff in Hw. destruct Hw as [Hw _].
    unfold is_word in Hw. destruct w as [|c w]; [discriminate|].
    cbn in Hw. destruct (is_space c) eqn:Ec; [discriminate|].
    destruct ws; cbn; now rewrite Ec. }
  rewrite Hfirst, rstrip_app_spaces by assumption.
  destruct (join_ends_with_word w ws Hw) as (p & w' & -> & Hw').
  now apply rstrip_app_word.
Qed.

Lemma parse_line (lead trail command : string) (args : list string) :
  all_chars is_space lead = true -> all_chars is_space trail = true ->
  forallb is_word (command :: args) = true ->
  parse_input (lead ++ join " " (command :: args) ++ trail)
  = Ok (command, args).
Proof.
  intros Hl Ht Hw. unfold parse_input.
  now rewrite strip_line, split_join.
Qed.

(** X23.  [parse_input] gives back the words of a line: for words written
    one space apart, with any white space before the first and after the
    last, it returns the first word as the command and the others, in their
    order, as the arguments. *)
Theorem X23_parse_input_words (lead trail command : string)
  (args : list string) :
  all_chars is_space lead = true -> all_chars is_space trail = true ->
  forallb is_word (command :: args) = true ->
  parse_input (lead ++ join " " (command :: args) ++ trail)
  = Ok (command, args).
Proof. apply parse_line. Qed.

Lemma X23_parse_input_words_witness :
  parse_input "  change Ann 0123456789 1111111111 "
  = Ok ("change"%string,
        ["Ann"%string; "0123456789"%string; "1111111111"%string]).
Proof.
  apply (X23_parse_input_words "  " " " "change"
           ["Ann"%string; "0123456789"%string; "1111111111"%string]);
    reflexivity.
Defined.

Lemma split_from_words (s : string) (cur : option string) :
  match cur with Some w => is_word w = true | None => True end ->
  Forall (fun w => is_word w = true) (split_from cur s).
Proof.
  revert cur. induction s as [|c s IH]; intros cur Hcur; cbn.
  - destruct cur; repeat constructor. assumption.
  - destruct (is_space c) eqn:Ec.
    + destruct cur; [constructor; [assumption|]|]; now apply IH.
    + apply IH. destruct cur as [w|].
      * unfold is_word in *. apply andb_true_iff in Hcur.
        destruct Hcur as [Hne Hw]. apply andb_true_iff. split.
        -- now destruct w.
        -- clear Hne. induction w as [|x w IHw]; cbn in *.
           ++ now rewrite Ec.
           ++ apply andb_true_iff in Hw. destruct Hw as [Hx Hw].
              rewrite Hx. now apply IHw.
      * unfold is_word. cbn. now rewrite Ec.
Qed.

(** X24.  The command and the arguments that [parse_input] returns are
    words: none is empty and none holds white space. *)
Theorem X24_parse_input_gives_words (user_input command : string)
  (args : list string) :
  parse_input user_input = Ok (command, args) ->
  Forall (fun w => is_word w = true) (command :: args).
Proof.
  unfold parse_input, split.
  pose proof (split_from_words (strip user_input) None I) as H.
  destruct (split_from None (strip user_input)); [discriminate|].
  now intros [= <- <-].
Qed.

Lemma X24_parse_input_gives_words_witness :
  Forall (fun w => is_word w = true)
         ["add"%string; "Ann"%string; "0123456789"%string].
Proof.
  apply (X24_parse_input_gives_words "add   Ann 0123456789").
  reflexivity.
Defined.

(** ** The commands [add], [phone], [add-birthday] and [show-birthday] *)

Lemma parse_words (command : string) (args : list string) :
  forallb is_word (command :: args) = true ->
  parse_input (join " " (command :: args)) = Ok (command, args).
Proof.
  intros H. pose proof (parse_line "" "" command args eq_refl eq_refl H) as P.
  cbn [append] in P. now rewrite append_empty_r in P.
Qed.

Lemma digit_not_space (c : ascii) : is_digit c = true -> is_space c = false.
Proof.
  intros H. destruct (in_range_digit 0 9 c ltac:(lia) ltac:(lia) H)
    as (k & Hk & ->).
  now apply digit_char_not_space.
Qed.

Lemma ten_digits_word (phone : string) :
  ten_digits phone = true -> is_word phone = true.
Proof.
  unfold ten_digits, is_word. intros H. apply andb_true_iff in H.
  destruct H as [Hlen Hd]. apply andb_true_iff. split.
  - destruct phone; [discriminate | reflexivity].
  - clear Hlen. induction phone as [|c phone IH]; cbn in *; [reflexivity|].
    apply andb_true_iff in Hd. destruct Hd as [Hc Hd].
    now rewrite (digit_not_space c Hc), IH.
Qed.

(** X25.  The command [add] with a name and ten digits puts the phone after
    the phones of the contact of that name, or makes the contact with that
    one phone when the book has none of that name; the other contacts are as
    before, and the command [phone] with the name then prints the phones of
    the contact, the new one last. *)
Theorem X25_add_command (pads : bool) (clock : nat -> datetime.t)
  (n phone : string) (st : state) :
  is_word n = true -> ten_digits phone = true ->
  let old := match AddressBook.find n (book st) with
             | Some r => r
             | None => Record.init n
             end in
  let record := Record.mk (Record.name old)
                          (Record.phones old ++ [Phone.mk phone])
                          (Record.birthday old) in
  let printed := match AddressBook.find n (book st) with
                 | Some _ => ("Added phone " ++ phone
                              ++ " to existing contact " ++ n ++ ".")%string
                 | None => ("Created new contact " ++ n ++ " with phone "
                            ++ phone ++ ".")%string
                 end in
  exists st',
    step pads clock ("add " ++ n ++ " " ++ phone) st
    = ([printed], Ok Continue, st')
    /\ ticks st' = ticks st
    /\ AddressBook.find n (book st') = Some record
    /\ (forall k, k <> n ->
                  AddressBook.find k (book st') = AddressBook.find k (book st))
    /\ step pads clock ("phone " ++ n) st'
       = ([(n ++ "'s phone numbers: "
            ++ join ", " (map Phone.str (Record.phones old) ++ [phone])
            ++ ".")%string],
          Ok Continue, st').
Proof.
  intros Hn Hd old record printed.
  assert (Hadd : parse_input ("add " ++ n ++ " " ++ phone)
                 = Ok ("add"%string, [n; phone])).
  { apply (parse_words "add" [n; phone]). cbn [forallb].
    now rewrite Hn, (ten_digits_word phone Hd). }
  assert (Hphone : parse_input ("phone " ++ n) = Ok ("phone"%string, [n])).
  { apply (parse_words "phone" [n]). cbn [forallb]. now rewrite Hn. }
  unfold step. rewrite Hadd, Hphone. cbn -[join].
  subst old record printed. unfold AddressBook.find.
  destruct (dict.get n (AddressBook.data (book st))) as [r|] eqn:E;
    rewrite add_phone_cases, Hd; eexists; (split; [reflexivity|]);
    cbn [ticks book store AddressBook.add_record AddressBook.data
         Record.name Record.init Name.value Record.phones Record.birthday];
    rewrite get_setitem_same;
    (split; [reflexivity|]); (split; [reflexivity|]);
    (split; [intros k Hk; now apply get_setitem_other|]);
    cbn [Record.phones]; now rewrite map_app.
Qed.

Lemma X25_add_command_witness :
  exists st',
    step true (fun _ => datetime.mk 2024 6 10 0 0 0 0)
         "add Ann 1111111111"
         (mk_state (AddressBook.mk
                      [("Ann", Record.mk (Name.mk "Ann")
                                 [Phone.mk "0123456789"] None)]) O)
    = (["Added phone 1111111111 to existing contact Ann."%string],
       Ok Continue, st')
    /\ step true (fun _ => datetime.mk 2024 6 10 0 0 0 0) "phone Ann" st'
       = (["Ann's phone numbers: 0123456789, 1111111111."%string],
          Ok Continue, st').
Proof.
  destruct (X25_add_command true (fun _ => datetime.mk 2024 6 10 0 0 0 0)
              "Ann" "1111111111"
              (mk_state (AddressBook.mk
                           [("Ann", Record.mk (Name.mk "Ann")
                                      [Phone.mk "0123456789"] None)]) O)
              eq_refl eq_refl)
    as (st' & H1 & _ & _ & _ & H2).
  exists st'. split; [exact H1 | exact H2].
Defined.

Lemma render_date_word (y m d : Z) :
  valid_date y m d -> is_word (render_date y m d) = true.
Proof.
  intros Hv. pose proof Hv as (Hy & Hm & Hd).
  pose proof (days_in_month_le_31 y m) as H31.
  destruct (zfill4_four y) as (a & b & c & e & (Ha & Hb & Hc & He) & Hz & _);
    [lia|].
  unfold render_date. rewrite Hz. unfold zfill2, four, is_word.
  cbn [append String.eqb negb andb all_chars].
  rewrite !digit_char_not_space
    by (assumption || (Z.div_mod_to_equations; lia)).
  reflexivity.
Qed.

(** X26.  For a contact of the book and a day of the calendar written
    DD.MM.YYYY, the command [add-birthday] sets the birthday of the contact
    and prints that it was added, and the command [show-birthday] then
    prints the same text of the day (where [strftime] writes the year with
    four digits). *)
Theorem X26_add_then_show_birthday (pads : bool) (clock : nat -> datetime.t)
  (n : string) (y m d : Z) (st : state) (r : Record.t) :
  is_word n = true ->
  AddressBook.find n (book st) = Some r ->
  valid_date y m d ->
  pads = true \/ 1000 <= y ->
  let text := render_date y m d in
  let record := Record.mk (Record.name r) (Record.phones r)
                          (Some (Birthday.mk (datetime.mk y m d 0 0 0 0))) in
  let st' := mk_state (store n record (book st)) (ticks st) in
  step pads clock ("add-birthday " ++ n ++ " " ++ text) st
  = ([("Birthday " ++ text ++ " added for " ++ n ++ ".")%string],
     Ok Continue, st')
  /\ step pads clock ("show-birthday " ++ n) st'
     = ([(n ++ "'s birthday is on " ++ text ++ ".")%string],
        Ok Continue, st').
Proof.
  intros Hn Hf Hv Hp text record st'.
  assert (Hadd : parse_input ("add-birthday " ++ n ++ " " ++ text)
                 = Ok ("add-birthday"%string, [n; text])).
  { assert (Hw : is_word text = true) by now apply render_date_word.
    apply (parse_words "add-birthday" [n; text]). cbn [forallb].
    now rewrite Hn, Hw. }
  assert (Hshow : parse_input ("show-birthday " ++ n)
                  = Ok ("show-birthday"%string, [n])).
  { apply (parse_words "show-birthday" [n]). cbn [forallb]. now rewrite Hn. }
  assert (Hstr : strftime pads (datetime.mk y m d 0 0 0 0) = text).
  { unfold strftime, text, render_date.
    cbn [datetime.year datetime.month datetime.day].
    destruct Hp as [->|Hy]; [reflexivity|].
    destruct pads; [reflexivity|].
    rewrite year_text_from_1000; [reflexivity|]. destruct Hv. lia. }
  unfold AddressBook.find in Hf.
  unfold step. rewrite Hadd, Hshow. cbn -[render_date].
  unfold add_birthday, show_birthday, input_error. rewrite Hf.
  unfold Record.add_birthday, Birthday.init.
  rewrite (strptime_date_texts y m d text Hv (render_in_date_texts y m d)).
  split; [reflexivity|].
  unfold st', store. cbn [book AddressBook.data].
  rewrite get_setitem_same. unfold record, Birthday.str.
  cbn [Birthday.value]. now rewrite Hstr.
Qed.

Lemma X26_add_then_show_birthday_witness :
  let clock := fun _ : nat => datetime.mk 2024 6 10 0 0 0 0 in
  let ann b := Record.mk (Name.mk "Ann") [Phone.mk "0123456789"] b in
  let st b := mk_state (AddressBook.mk [("Ann", ann b)]) O in
  let bd := Some (Birthday.mk (datetime.mk 1990 6 15 0 0 0 0)) in
  step false clock "add-birthday Ann 15.06.1990" (st None)
  = (["Birthday 15.06.1990 added for Ann."%string], Ok Continue, st bd)
  /\ step false clock "show-birthday Ann" (st bd)
     = (["Ann's birthday is on 15.06.1990."%string], Ok Continue, st bd).
Proof.
  intros clock ann st bd.
  apply (X26_add_then_show_birthday false clock "Ann" 1990 6 15 (st None)
           (ann None)).
  - reflexivity.
  - reflexivity.
  - side_conditions.
  - right. lia.
Defined.

(** ** The loop as a whole *)

(** X27.  A line whose first word is [close] or [exit] ends the loop of
    [main] normally, whatever follows the word on the line: the farewell is
    printed, the state is as before and no further line is read. *)
Theorem X27_exit_ends_loop (pads : bool) (clock : nat -> datetime.t)
  (user_input command : string) (args rest : list string) (st : state) :
  parse_input user_input = Ok (command, args) ->
  command = "close"%string \/ command = "exit"%string ->
  loop pads clock (user_input :: rest) st
  = (["Good bye!"%string], Ok tt, st).
Proof.
  intros Hp Hc. cbn [loop]. unfold step. rewrite Hp.
  now destruct Hc as [->| ->].
Qed.

Lemma X27_exit_ends_loop_witness :
  loop true (fun _ => datetime.mk 2024 6 10 0 0 0 0)
       ["exit now"%string; "add Ann 0123456789"%string]
       (mk_state AddressBook.init O)
  = (["Good bye!"%string], Ok tt, mk_state AddressBook.init O).
Proof.
  apply (X27_exit_ends_loop true _ "exit now" "exit" ["now"%string]
           ["add Ann 0123456789"%string] (mk_state AddressBook.init O));
    [reflexivity | now right].
Defined.

(** X28.  The loop of [main] can be run in two parts: when it has read all
    of its lines, which it tells by the [EOFError] of [input], running it on
    these lines followed by others prints what it printed and then what the
    loop prints on the others from the state it reached. *)
Theorem X28_loop_in_two_parts (pads : bool) (clock : nat -> datetime.t)
  (lines1 lines2 : list string) (st st1 : state) (out1 : list string) :
  loop pads clock lines1 st = (out1, Raise EOFError, st1) ->
  loop pads clock (lines1 ++ lines2) st
  = (let '(out2, r, st2) := loop pads clock lines2 st1 in
     (out1 ++ out2, r, st2)).
Proof.
  revert st out1. induction lines1 as [|line lines1 IH]; intros st out1.
  - cbn. intros [= <- <-]. now destruct (loop pads clock lines2 st)
      as [[? ?] ?].
  - cbn [loop app].
    destruct (step pads clock line st) as [[o [[]|e]] st'] eqn:Es.
    + destruct (loop pads clock lines1 st') as [[o1 r1] s1] eqn:El.
      intros [= <- -> Hs]. rewrite Hs in El. rewrite (IH _ _ El).
      destruct (loop pads clock lines2 st1) as [[o2 r2] s2].
      now rewrite app_assoc.
    + discriminate.
    + intros [= _ -> _].
      destruct (step_raises _ _ _ _ _ _ _ Es)
        as (_ & _ & [[_ H]|(? & ? & ? & _ & _ & H)]); discriminate.
Qed.

Lemma X28_loop_in_two_parts_witness :
  let clock := fun _ : nat => datetime.mk 2024 6 10 0 0 0 0 in
  let st1 := mk_state
               (AddressBook.mk
                  [("Ann", Record.mk (Name.mk "Ann")
                             [Phone.mk "0123456789"] None)]) O in
  loop true clock (["add Ann 0123456789"%string] ++ ["phone Ann"%string])
       (mk_state AddressBook.init O)
  = (let '(out2, r, st2) := loop true clock ["phone Ann"%string] st1 in
     (["Created new contact Ann with phone 0123456789."%string] ++ out2,
      r, st2)).
Proof.
  intros clock st1.
  apply (X28_loop_in_two_parts true clock ["add Ann 0123456789"%string]
           ["phone Ann"%string] (mk_state AddressBook.init O) st1).
  reflexivity.
Defined.

(** ** The method against the rule on dates *)

(** For a birthday that is not 29 February, [days_to_birthday] returns what
    the rule on dates gives for the date of the clock only while the clock
    reads midnight exactly.  At every later time of the day it returns one
    day less, and on the birthday itself, where the rule gives 0, one day
    less than the days to the birthday of the next year. *)
Lemma days_to_birthday_against_rule (today : datetime.t) (r : Record.t)
  (b : Birthday.t) :
  Record.birthday r = Some b ->
  valid_datetime today ->
  datetime.year today < 9999 ->
  valid_date (datetime.year (Birthday.value b))
             (datetime.month (Birthday.value b))
             (datetime.day (Birthday.value b)) ->
  at_midnight (Birthday.value b) ->
  ~ (datetime.month (Birthday.value b) = 2
     /\ datetime.day (Birthday.value b) = 29) ->
  let bm := datetime.month (Birthday.value b) in
  let bd := datetime.day (Birthday.value b) in
  let y := datetime.year today in
  let tm := datetime.month today in
  let td := datetime.day today in
  Record.days_to_birthday today r
  = Ok (Some
          (if is_midnight (datetime.hour today) (datetime.minute today)
                          (datetime.second today) (datetime.microsecond today)
           then rule_on_dates bm bd y tm td
           else if (bm =? tm) && (bd =? td)
                then datetime.ymd2ord (y + 1) bm bd
                     - datetime.ymd2ord y bm bd - 1
                else rule_on_dates bm bd y tm td - 1)).
Proof.
  destruct b as [[byear bm bd bh bmi bs bus]].
  destruct today as [y tm td h mi s us].
  unfold valid_datetime, at_midnight.
  cbn [Birthday.value datetime.year datetime.month datetime.day datetime.hour
       datetime.minute datetime.second datetime.microsecond].
  intros Hb ((Hy & Htm & Htd) & Ht) Hy9 (Hby & Hbm & Hbd) (-> & -> & -> & ->)
    Hfeb.
  pose proof (day_in_every_year byear y bm bd Hbd Hfeb) as Hd0.
  pose proof (day_in_every_year byear (y + 1) bm bd Hbd Hfeb) as Hd1.
  pose proof (ltb_same_year y bm bd tm td h mi s us Ht) as Hlt.
  pose proof Ht as (Hh & Hmi & Hs & Hus).
  assert (Hmid : is_midnight h mi s us
                 = (0 + 0 * 60 + 0 * 3600 - (s + mi * 60 + h * 3600) =? 0)
                   && (0 - us =? 0)).
  { unfold is_midnight.
    destruct (Z.eqb_spec h 0), (Z.eqb_spec mi 0), (Z.eqb_spec s 0),
      (Z.eqb_spec us 0); cbn [andb]; symmetry;
      rewrite ?andb_true_iff, ?andb_false_iff, ?Z.eqb_eq, ?Z.eqb_neq; lia. }
  assert (Hm0 : is_midnight h mi s us = true <-> h + mi + s + us = 0).
  { unfold is_midnight. rewrite !andb_true_iff, !Z.eqb_eq. lia. }
  assert (Hrule : match datetime.cmp [y; bm; bd] [y; tm; td] with
                  | Lt => true
                  | _ => false
                  end = true
                  <-> bm < tm \/ (bm = tm /\ bd < td)).
  { cbn [datetime.cmp]. rewrite Z.compare_refl.
    destruct (Z.compare_spec bm tm); [|split; [lia | reflexivity]
                                      |split; [discriminate | lia]].
    destruct (Z.compare_spec bd td);
      split; try discriminate; try reflexivity; lia. }
  unfold rule_on_dates, Record.days_to_birthday. rewrite Hb.
  rewrite replace_year_ok
    by (cbn [Birthday.value datetime.year datetime.month datetime.day];
        unfold valid_date; lia).
  cbn [bind Birthday.value datetime.year datetime.month datetime.day
       datetime.hour datetime.minute datetime.second datetime.microsecond].
  destruct (datetime.ltb (datetime.mk y bm bd 0 0 0 0)
                         (datetime.mk y tm td h mi s us)) eqn:E.
  - rewrite replace_year_ok
      by (cbn [datetime.month datetime.day]; unfold valid_date; lia).
    cbn [bind datetime.month datetime.day datetime.hour datetime.minute
         datetime.second datetime.microsecond].
    pose proof (proj1 Hlt eq_refl) as F.
    unfold datetime_sub, datetime.toordinal.
    cbn [datetime.year datetime.month datetime.day datetime.hour
         datetime.minute datetime.second datetime.microsecond].
    rewrite timedelta_days_floor by lia. rewrite <- Hmid.
    do 2 f_equal.
    destruct (match datetime.cmp [y; bm; bd] [y; tm; td] with
              | Lt => true
              | _ => false
              end) eqn:R.
    + pose proof (proj1 Hrule eq_refl) as G.
      destruct (is_midnight h mi s us); [reflexivity|].
      destruct (Z.eqb_spec bm tm), (Z.eqb_spec bd td); cbn [andb];
        try reflexivity; lia.
    + assert (G : ~ (bm < tm \/ (bm = tm /\ bd < td)))
        by (intros G; apply Hrule in G; discriminate).
      assert (bm = tm /\ bd = td /\ 0 < h + mi + s + us) as (-> & -> & Hpos)
        by lia.
      destruct (is_midnight h mi s us) eqn:M;
        [pose proof (proj1 Hm0 eq_refl); lia|].
      now rewrite !Z.eqb_refl.
  - assert (F : ~ (bm < tm
                   \/ (bm = tm
                       /\ (bd < td \/ (bd = td /\ 0 < h + mi + s + us)))))
      by (intros F; apply Hlt in F; discriminate).
    cbn [bind]. unfold datetime_sub, datetime.toordinal.
    cbn [datetime.year datetime.month datetime.day datetime.hour
         datetime.minute datetime.second datetime.microsecond].
    rewrite timedelta_days_floor by lia. rewrite <- Hmid.
    do 2 f_equal.
    destruct (match datetime.cmp [y; bm; bd] [y; tm; td] with
              | Lt => true
              | _ => false
              end) eqn:R; [pose proof (proj1 Hrule eq_refl); lia|].
    destruct (is_midnight h mi s us) eqn:M; [reflexivity|].
    assert (Hpos : 0 < h + mi + s + us).
    { destruct (Z.eq_dec (h + mi + s + us) 0) as [Z0|]; [|lia].
      apply Hm0 in Z0. congruence. }
    destruct (Z.eqb_spec bm tm), (Z.eqb_spec bd td); cbn [andb];
      try reflexivity; lia.
Qed.

(** The rule on dates gives the numbers of the claim on birthdays. *)
Example rule_on_dates_june :
  rule_on_dates 6 15 2024 6 10 = 5 /\ rule_on_dates 6 15 2024 6 20 = 360
  /\ rule_on_dates 6 15 2024 6 15 = 0.
Proof. repeat split. Qed.
